(** * Aether gateway: attempt context, usage extraction, verification codes,
      rate-limited auth handlers and concurrency counters.

    A shallow embedding of
    - [src/api/handlers/base/stream_context.py]  (module [StreamCtx]),
    - [src/api/handlers/base/utils.py]           (module [HandlerUtils]),
    - [src/services/verification/email_verification.py] (module [EmailVerification]),
    - [src/api/auth/routes.py]                   (module [AuthRoutes]),
    - the concurrency manager behind [src/api/admin/endpoints/concurrency.py]
      (module [Concurrency]).

    Python [int] is unbounded and is modelled by [Z]; [Optional[T]] by
    [option T]; [Dict[str, T]] by [gmap string T]; a dict literal whose
    shape matters by an ordered association list inside [Json]. *)

From stdpp Require Import gmap strings list.
From Stdlib Require Import ZArith DecimalString DecimalFacts DecimalPos.

#[local] Open Scope Z_scope.
#[local] Set Warnings "-register-all".

(** ** JSON-like Python values ([Dict[str, Any]], [List[Dict[str, Any]]]) *)

Inductive Json : Type :=
| JNull
| JBool (b : bool)
| JInt (z : Z)
| JStr (s : string)
| JList (items : list Json)
| JDict (fields : list (string * Json)).

(** [d[k]] / [d.get(k)] on a dict literal kept in insertion order. *)
Fixpoint assoc_get (k : string) (fields : list (string * Json)) : option Json :=
  match fields with
  | [] => None
  | (k', v) :: rest => if String.eqb k k' then Some v else assoc_get k rest
  end.

Definition jget (k : string) (j : Json) : option Json :=
  match j with
  | JDict fields => assoc_get k fields
  | _ => None
  end.

Definition jkeys (j : Json) : list string :=
  match j with
  | JDict fields => map fst fields
  | _ => []
  end.

(** Python's [len] returns an [int]. *)
Definition py_len {A : Type} (l : list A) : Z := Z.of_nat (length l).

(** Python's [str(n)] / [f"{n}"] for an [int]. *)
Definition str_of_int (n : Z) : string := NilZero.string_of_int (Z.to_int n).

(** ** [StreamContext] *)

Module StreamCtx.

Record StreamContext : Type := mkStreamContext {
  (* request identity *)
  model : string;
  api_format : string;
  (* provider information, filled when the request executes *)
  provider_name : option string;
  provider_id : option string;
  endpoint_id : option string;
  key_id : option string;
  attempt_id : option string;
  provider_api_format : option string;
  (* model mapping *)
  mapped_model : option string;
  (* token statistics *)
  input_tokens : Z;
  output_tokens : Z;
  cached_tokens : Z;
  cache_creation_tokens : Z;
  (* response content *)
  collected_text : string;
  (* response status *)
  status_code : Z;
  error_message : option string;
  has_completion : bool;
  (* request / response data *)
  response_headers : gmap string string;
  provider_request_headers : gmap string string;
  provider_request_body : option Json;
  (* streaming statistics *)
  data_count : Z;
  chunk_count : Z;
  parsed_chunks : list Json
}.

(** The dataclass constructor [StreamContext(model, api_format)]: every
    other field takes its declared default. *)
Definition fresh (m fmt : string) : StreamContext :=
  {| model := m; api_format := fmt;
     provider_name := None; provider_id := None; endpoint_id := None;
     key_id := None; attempt_id := None; provider_api_format := None;
     mapped_model := None;
     input_tokens := 0; output_tokens := 0; cached_tokens := 0;
     cache_creation_tokens := 0;
     collected_text := "";
     status_code := 200; error_message := None; has_completion := false;
     response_headers := ∅; provider_request_headers := ∅;
     provider_request_body := None;
     data_count := 0; chunk_count := 0; parsed_chunks := [] |}.

(** [reset_for_retry]: fourteen assignments, in the source's order of
    fields; the fields it does not assign keep their value. *)
Definition reset_for_retry (self : StreamContext) : StreamContext :=
  {| model := model self; api_format := api_format self;
     provider_name := provider_name self;
     provider_id := provider_id self;
     endpoint_id := endpoint_id self;
     key_id := key_id self;
     attempt_id := attempt_id self;
     provider_api_format := provider_api_format self;
     mapped_model := mapped_model self;
     input_tokens := 0; output_tokens := 0; cached_tokens := 0;
     cache_creation_tokens := 0;
     collected_text := "";
     status_code := 200; error_message := None; has_completion := false;
     response_headers := ∅; provider_request_headers := ∅;
     provider_request_body := None;
     data_count := 0; chunk_count := 0; parsed_chunks := [] |}.

Definition update_provider_info (self : StreamContext)
    (name pid eid kid : string) (fmt : option string) : StreamContext :=
  {| model := model self; api_format := api_format self;
     provider_name := Some name;
     provider_id := Some pid;
     endpoint_id := Some eid;
     key_id := Some kid;
     attempt_id := attempt_id self;
     provider_api_format := fmt;
     mapped_model := mapped_model self;
     input_tokens := input_tokens self; output_tokens := output_tokens self;
     cached_tokens := cached_tokens self;
     cache_creation_tokens := cache_creation_tokens self;
     collected_text := collected_text self;
     status_code := status_code self; error_message := error_message self;
     has_completion := has_completion self;
     response_headers := response_headers self;
     provider_request_headers := provider_request_headers self;
     provider_request_body := provider_request_body self;
     data_count := data_count self; chunk_count := chunk_count self;
     parsed_chunks := parsed_chunks self |}.

(** Field setters for the four counters ([self.x = v]). *)
Definition set_input_tokens (v : Z) (self : StreamContext) : StreamContext :=
  {| model := model self; api_format := api_format self;
     provider_name := provider_name self; provider_id := provider_id self;
     endpoint_id := endpoint_id self; key_id := key_id self;
     attempt_id := attempt_id self;
     provider_api_format := provider_api_format self;
     mapped_model := mapped_model self;
     input_tokens := v; output_tokens := output_tokens self;
     cached_tokens := cached_tokens self;
     cache_creation_tokens := cache_creation_tokens self;
     collected_text := collected_text self;
     status_code := status_code self; error_message := error_message self;
     has_completion := has_completion self;
     response_headers := response_headers self;
     provider_request_headers := provider_request_headers self;
     provider_request_body := provider_request_body self;
     data_count := data_count self; chunk_count := chunk_count self;
     parsed_chunks := parsed_chunks self |}.

Definition set_output_tokens (v : Z) (self : StreamContext) : StreamContext :=
  {| model := model self; api_format := api_format self;
     provider_name := provider_name self; provider_id := provider_id self;
     endpoint_id := endpoint_id self; key_id := key_id self;
     attempt_id := attempt_id self;
     provider_api_format := provider_api_format self;
     mapped_model := mapped_model self;
     input_tokens := input_tokens self; output_tokens := v;
     cached_tokens := cached_tokens self;
     cache_creation_tokens := cache_creation_tokens self;
     collected_text := collected_text self;
     status_code := status_code self; error_message := error_message self;
     has_completion := has_completion self;
     response_headers := response_headers self;
     provider_request_headers := provider_request_headers self;
     provider_request_body := provider_request_body self;
     data_count := data_count self; chunk_count := chunk_count self;
     parsed_chunks := parsed_chunks self |}.

Definition set_cached_tokens (v : Z) (self : StreamContext) : StreamContext :=
  {| model := model self; api_format := api_format self;
     provider_name := provider_name self; provider_id := provider_id self;
     endpoint_id := endpoint_id self; key_id := key_id self;
     attempt_id := attempt_id self;
     provider_api_format := provider_api_format self;
     mapped_model := mapped_model self;
     input_tokens := input_tokens self; output_tokens := output_tokens self;
     cached_tokens := v;
     cache_creation_tokens := cache_creation_tokens self;
     collected_text := collected_text self;
     status_code := status_code self; error_message := error_message self;
     has_completion := has_completion self;
     response_headers := response_headers self;
     provider_request_headers := provider_request_headers self;
     provider_request_body := provider_request_body self;
     data_count := data_count self; chunk_count := chunk_count self;
     parsed_chunks := parsed_chunks self |}.

Definition set_cache_creation_tokens (v : Z) (self : StreamContext)
    : StreamContext :=
  {| model := model self; api_format := api_format self;
     provider_name := provider_name self; provider_id := provider_id self;
     endpoint_id := endpoint_id self; key_id := key_id self;
     attempt_id := attempt_id self;
     provider_api_format := provider_api_format self;
     mapped_model := mapped_model self;
     input_tokens := input_tokens self; output_tokens := output_tokens self;
     cached_tokens := cached_tokens self;
     cache_creation_tokens := v;
     collected_text := collected_text self;
     status_code := status_code self; error_message := error_message self;
     has_completion := has_completion self;
     response_headers := response_headers self;
     provider_request_headers := provider_request_headers self;
     provider_request_body := provider_request_body self;
     data_count := data_count self; chunk_count := chunk_count self;
     parsed_chunks := parsed_chunks self |}.

(** [update_usage]: four guarded assignments, executed in sequence.
    [x is not None and (x > 0 or self.x == 0)]. *)
Definition update_usage (self : StreamContext)
    (input_tokens' output_tokens' cached_tokens' cache_creation_tokens'
       : option Z) : StreamContext :=
  let self :=
    match input_tokens' with
    | Some v =>
        if (0 <? v) || (input_tokens self =? 0)
        then set_input_tokens v self else self
    | None => self
    end in
  let self :=
    match output_tokens' with
    | Some v =>
        if (0 <? v) || (output_tokens self =? 0)
        then set_output_tokens v self else self
    | None => self
    end in
  let self :=
    match cached_tokens' with
    | Some v =>
        if (0 <? v) || (cached_tokens self =? 0)
        then set_cached_tokens v self else self
    | None => self
    end in
  match cache_creation_tokens' with
  | Some v =>
      if (0 <? v) || (cache_creation_tokens self =? 0)
      then set_cache_creation_tokens v self else self
  | None => self
  end.

(** [mark_failed]: two assignments. *)
Definition mark_failed (self : StreamContext) (code : Z) (msg : string)
    : StreamContext :=
  {| model := model self; api_format := api_format self;
     provider_name := provider_name self; provider_id := provider_id self;
     endpoint_id := endpoint_id self; key_id := key_id self;
     attempt_id := attempt_id self;
     provider_api_format := provider_api_format self;
     mapped_model := mapped_model self;
     input_tokens := input_tokens self; output_tokens := output_tokens self;
     cached_tokens := cached_tokens self;
     cache_creation_tokens := cache_creation_tokens self;
     collected_text := collected_text self;
     status_code := code; error_message := Some msg;
     has_completion := has_completion self;
     response_headers := response_headers self;
     provider_request_headers := provider_request_headers self;
     provider_request_body := provider_request_body self;
     data_count := data_count self; chunk_count := chunk_count self;
     parsed_chunks := parsed_chunks self |}.

(** [is_success]: [self.status_code < 400]. *)
Definition is_success (self : StreamContext) : bool :=
  status_code self <? 400.

(** [build_response_body]: the dict literal the method returns. *)
Definition build_response_body (self : StreamContext) (response_time_ms : Z)
    : Json :=
  JDict
    [ ("chunks", JList (parsed_chunks self));
      ("metadata",
        JDict
          [ ("stream", JBool true);
            ("total_chunks", JInt (py_len (parsed_chunks self)));
            ("data_count", JInt (data_count self));
            ("has_completion", JBool (has_completion self));
            ("response_time_ms", JInt response_time_ms) ]) ].

(** What one counter holds after [update_usage], as a function of the
    argument given for it and of what it held before. *)
Definition merged (arg : option Z) (stored : Z) : Z :=
  match arg with
  | Some v => if (0 <? v) || (stored =? 0) then v else stored
  | None => stored
  end.

(** The overwrite policy for one counter, relating the argument, the
    value stored before the call and the value stored after it. *)
Definition overwrite_policy (arg : option Z) (stored result : Z) : Prop :=
  match arg with
  | None => result = stored
  | Some v =>
      (0 < v \/ stored = 0 -> result = v)
      /\ (~ (0 < v \/ stored = 0) -> result = stored)
  end.

End StreamCtx.

(** ** [extract_cache_creation_tokens] *)

Module HandlerUtils.

Section WithStringConversion.

(** Python's [int(s)] on a [str]: the parsed integer, or [None] when it
    raises [ValueError]. Its grammar plays no part below, so it is left
    open. *)
Variable int_of_str : string -> option Z.

(** Python's builtin [int(x)]; [None] stands for a raised [TypeError] or
    [ValueError]. *)
Definition py_int (x : Json) : option Z :=
  match x with
  | JInt z => Some z
  | JBool b => Some (if b then 1 else 0)
  | JStr s => int_of_str s
  | JNull | JList _ | JDict _ => None
  end.

(** [usage.get(key, 0)] *)
Definition usage_get (usage : gmap string Json) (key : string) : Json :=
  default (JInt 0) (usage !! key).

(** The body of [extract_cache_creation_tokens]; the old-format field is
    only read and converted when the new-format total is not positive. *)
Definition extract_cache_creation_tokens (usage : gmap string Json)
    : option Z :=
  let cache_5m := usage_get usage "claude_cache_creation_5_m_tokens" in
  let cache_1h := usage_get usage "claude_cache_creation_1_h_tokens" in
  a ← py_int cache_5m;
  b ← py_int cache_1h;
  let total := a + b in
  if 0 <? total then Some total
  else py_int (usage_get usage "cache_creation_input_tokens").

End WithStringConversion.



End HandlerUtils.

(** ** [EmailVerificationService.verify_code] over a Redis store *)

Module EmailVerification.

(** The dictionary [{"code", "attempts", "created_at"}] that
    [send_verification_code] serialises with [json.dumps]. Since
    [json.loads (json.dumps d)] gives [d] back, the store keeps the
    dictionary itself. *)
Record VerificationData : Type := mkData {
  code : string;
  attempts : Z;
  created_at : string
}.

(** A Redis string value: a serialised verification dictionary, or any
    other text (the ["verified"] marker, a counter, ...). *)
Inductive RedisValue : Type :=
| RData (d : VerificationData)
| RText (s : string).

(** A live key: its value and what the [TTL] command reports for it
    (whole seconds, rounded; [-1] for a key without expiry). *)
Record RedisEntry : Type := mkEntry {
  value : RedisValue;
  ttl_seconds : Z
}.

Definition redis_get (r : gmap string RedisEntry) (key : string)
    : option RedisValue :=
  value <$> r !! key.

(** [TTL key]: [-2] when the key does not exist. *)
Definition redis_ttl (r : gmap string RedisEntry) (key : string) : Z :=
  match r !! key with
  | Some e => ttl_seconds e
  | None => -2
  end.

Definition redis_setex (r : gmap string RedisEntry) (key : string)
    (seconds : Z) (v : RedisValue) : gmap string RedisEntry :=
  <[key := {| value := v; ttl_seconds := seconds |}]> r.

Definition redis_delete (r : gmap string RedisEntry) (key : string)
    : gmap string RedisEntry :=
  delete key r.

Definition VERIFICATION_PREFIX : string := "email:verification:".
Definition SEND_LIMIT_PREFIX : string := "email:send_limit:".
Definition VERIFIED_PREFIX : string := "email:verified:".

Definition DEFAULT_CODE_EXPIRE_MINUTES : Z := 30.
Definition DEFAULT_MAX_ATTEMPTS : Z := 5.
Definition SEND_COOLDOWN_SECONDS : Z := 60.
Definition SEND_LIMIT_PER_HOUR : Z := 5.

(** A Python [str] is kept as its UTF-8 bytes: it is ASCII when every
    byte is below 128. *)
Fixpoint is_ascii (s : string) : bool :=
  match s with
  | EmptyString => true
  | String (Ascii.Ascii _ _ _ _ _ _ _ b7) rest => negb b7 && is_ascii rest
  end.

(** [secrets.compare_digest(a, b)] on two [str]: raises [TypeError]
    ([None] here) unless both are ASCII. *)
Definition compare_digest (a b : string) : option bool :=
  if is_ascii a && is_ascii b then Some (String.eqb a b) else None.

(** [data["attempts"] += 1] *)
Definition bump_attempts (data : VerificationData) : VerificationData :=
  {| code := code data;
     attempts := attempts data + 1;
     created_at := created_at data |}.

(** [verify_code(email, code)]. [client] is what [get_redis_client]
    returned ([None]: Redis unavailable); the result pairs the returned
    tuple with the store after the call. An exception raised inside the
    [try] block leaves the store as it was at that point and yields
    [(False, "系统错误")]. *)
Definition verify_code (client : option (gmap string RedisEntry))
    (email code' : string)
    : (bool * string) * option (gmap string RedisEntry) :=
  match client with
  | None => ((false, "系统错误"), None)
  | Some r =>
      let verification_key := VERIFICATION_PREFIX +:+ email in
      match redis_get r verification_key with
      | None => ((false, "验证码不存在或已过期"), Some r)
      | Some (RText "") => ((false, "验证码不存在或已过期"), Some r)
      | Some (RText _) => ((false, "系统错误"), Some r)
      | Some (RData data) =>
          if DEFAULT_MAX_ATTEMPTS <=? attempts data then
            ((false, "验证码尝试次数过多，请重新发送"),
             Some (redis_delete r verification_key))
          else
            let data := bump_attempts data in
            match compare_digest code' (code data) with
            | None => ((false, "系统错误"), Some r)
            | Some false =>
                let ttl := redis_ttl r verification_key in
                let r :=
                  if 0 <? ttl
                  then redis_setex r verification_key ttl (RData data)
                  else r in
                let remaining_attempts :=
                  DEFAULT_MAX_ATTEMPTS - attempts data in
                ((false,
                  "验证码错误，剩余尝试次数: "
                    +:+ str_of_int remaining_attempts),
                 Some r)
            | Some true =>
                let r := redis_delete r verification_key in
                let verified_key := VERIFIED_PREFIX +:+ email in
                let r := redis_setex r verified_key 3600 (RText "verified") in
                ((true, "验证成功"), Some r)
            end
      end
  end.

(** Successive [verify_code] calls for one email, each on the store the
    previous call left. *)
Fixpoint verify_all (client : option (gmap string RedisEntry))
    (email : string) (codes : list string) : list (bool * string) :=
  match codes with
  | [] => []
  | c :: rest =>
      let '(res, client') := verify_code client email c in
      res :: verify_all client' email rest
  end.

(** The persisted attempt count of an email's pending code. *)
Definition stored_attempts (r : gmap string RedisEntry) (email : string)
    : option Z :=
  match redis_get r (VERIFICATION_PREFIX +:+ email) with
  | Some (RData d) => Some (attempts d)
  | _ => None
  end.

End EmailVerification.

(** ** The public auth handlers of [src/api/auth/routes.py] *)

Module AuthRoutes.

(** Exceptions the handlers raise. *)
Inductive Exn : Type :=
| HTTPException (status_code : Z) (detail : string)
| InvalidRequestException (message : string)
| ValidationError (errors : list (list string * string))
| ValueError (message : string)
| BodyError (message : string).

Definition HTTP_400_BAD_REQUEST : Z := 400.
Definition HTTP_401_UNAUTHORIZED : Z := 401.
Definition HTTP_403_FORBIDDEN : Z := 403.
Definition HTTP_429_TOO_MANY_REQUESTS : Z := 429.
Definition HTTP_500_INTERNAL_SERVER_ERROR : Z := 500.

Record User : Type := mkUser {
  user_id : string;
  user_email : string;
  user_username : string;
  user_role : string;
  user_created_at : option string
}.

Record LoginRequest : Type :=
  { login_email : string; login_password : string }.
Record RegisterRequest : Type :=
  { register_email : string; register_username : string;
    register_password : string }.
Record SendVerificationCodeRequest : Type := { send_email : string }.
Record VerifyEmailRequest : Type :=
  { verify_email : string; verify_code : string }.

(** Every call a handler makes into a collaborator (request context,
    limiter, services, database, logger), in the order it is made. *)
Inductive Effect : Type :=
| EEnsureJsonBody
| EModelValidate (model_name : string)
| EGetClientIp
| EGetUserAgent
| ECheckLimit (client_ip action : string)
| ELogWarning (msg : string)
| ELogError (msg : string)
| ELogInfo (msg : string)
| EAuthenticateUser (email password : string)
| EAuditLoginAttempt (email : string) (success : bool)
| EAuditEvent (event_type description : string)
| EDbCommit
| ECreateAccessToken (uid : string)
| ECreateRefreshToken (uid : string)
| EQueryRegistrationSetting
| EQueryUserByEmail (email : string)
| EGetConfig (key : string)
| EIsEmailVerified (email : string)
| ECreateUser (email username : string)
| EClearVerification (email : string)
| ESendVerificationCode (email : string) (expire_minutes : Z)
| ESendMail (email code : string)
| EVerifyCode (email code : string).

(** What the collaborators answer during one request. *)
Record World : Type := mkWorld {
  w_json_body : Exn + Json;
  w_validate_login : Json -> list (list string * string) + LoginRequest;
  w_validate_register :
    Json -> list (list string * string) + RegisterRequest;
  w_validate_send :
    Json -> list (list string * string) + SendVerificationCodeRequest;
  w_validate_verify :
    Json -> list (list string * string) + VerifyEmailRequest;
  w_client_ip : string;
  w_user_agent : string;
  (** [IPRateLimiter.check_limit]: (allowed, remaining, reset_after) *)
  w_check_limit : string -> string -> bool * Z * Z;
  w_authenticate_user : string -> string -> option User;
  w_access_token : User -> string;
  w_refresh_token : User -> string;
  (** the [enable_registration] row of [SystemConfig] and its value *)
  w_registration_setting : option bool;
  w_require_email_verification : bool;
  w_verification_code_expire_minutes : Z;
  w_is_email_verified : string -> bool;
  (** [UserService.create_user]: a [ValueError] message or the user *)
  w_create_user : string -> string -> string -> string + User;
  w_existing_user : string -> bool;
  w_send_verification_code : string -> Z -> bool * string * option string;
  w_send_mail : string -> string -> Z -> bool * option string;
  w_verify_code : string -> string -> bool * string
}.

(** Handlers run in a trace-and-exception monad. *)
Definition M (A : Type) : Type := list Effect -> list Effect * (Exn + A).

Definition ret {A} (a : A) : M A := fun t => (t, inr a).

Definition bind {A B} (m : M A) (k : A -> M B) : M B :=
  fun t =>
    match m t with
    | (t', inl e) => (t', inl e)
    | (t', inr a) => k a t'
    end.

Definition raise {A} (e : Exn) : M A := fun t => (t, inl e).

Definition emit (ev : Effect) : M unit := fun t => (t ++ [ev], inr tt).

(** [try: m except <matching>: handler] *)
Definition try_except {A} (m : M A) (handler : Exn -> option (M A)) : M A :=
  fun t =>
    match m t with
    | (t', inl e) =>
        match handler e with
        | Some h => h t'
        | None => (t', inl e)
        end
    | r => r
    end.

Definition run {A} (m : M A) : list Effect * (Exn + A) := m [].

Declare Scope handler_scope.
Delimit Scope handler_scope with handler.
Notation "'do' x <- m ; k" := (bind m (fun x => k))
  (at level 10, x pattern, m at level 99, k at level 200) : handler_scope.
Notation "m ;; k" := (bind m (fun _ => k))
  (at level 100, k at level 200, right associativity) : handler_scope.
#[local] Open Scope handler_scope.

(** A call that answers [a]. *)
Definition call {A} (ev : Effect) (a : A) : M A := emit ev ;; ret a.

(** A call that answers or raises. *)
Definition call_exn {A} (ev : Effect) (r : Exn + A) : M A :=
  emit ev ;; match r with inl e => raise e | inr a => ret a end.

(** [sep.join(parts)] *)
Fixpoint py_join (sep : string) (parts : list string) : string :=
  match parts with
  | [] => ""
  | [p] => p
  | p :: rest => p +:+ sep +:+ py_join sep rest
  end.

(** The [except ValidationError] block shared by three handlers. *)
Definition validation_message (errors : list (list string * string))
    : string :=
  "输入验证失败: "
    +:+ py_join "; "
          (map (fun e => py_join " -> " (fst e) +:+ ": " +:+ snd e) errors).

Definition validate_or_invalid {R} (model_name : string)
    (v : list (list string * string) + R) : M R :=
  emit (EModelValidate model_name) ;;
  match v with
  | inl errors => raise (InvalidRequestException (validation_message errors))
  | inr req => ret req
  end.

(** [AuthLoginAdapter.handle] *)
Definition login_handle (w : World) : M Json :=
  do payload <- call_exn EEnsureJsonBody (w_json_body w);
  do login_request <-
    validate_or_invalid "LoginRequest" (w_validate_login w payload);
  do client_ip <- call EGetClientIp (w_client_ip w);
  do user_agent <- call EGetUserAgent (w_user_agent w);
  do (allowed, remaining, reset_after) <-
    call (ECheckLimit client_ip "login") (w_check_limit w client_ip "login");
  (if negb allowed then
     emit (ELogWarning ("登录请求超过速率限制: IP=" +:+ client_ip
                          +:+ ", 剩余=" +:+ str_of_int remaining)) ;;
     raise (HTTPException HTTP_429_TOO_MANY_REQUESTS
              ("登录请求过于频繁，请在 " +:+ str_of_int reset_after
                 +:+ " 秒后重试"))
   else ret tt) ;;
  do user <-
    call (EAuthenticateUser (login_email login_request)
            (login_password login_request))
         (w_authenticate_user w (login_email login_request)
            (login_password login_request));
  match user with
  | None =>
      emit (EAuditLoginAttempt (login_email login_request) false) ;;
      emit EDbCommit ;;
      raise (HTTPException HTTP_401_UNAUTHORIZED "邮箱或密码错误")
  | Some user =>
      emit (EAuditLoginAttempt (login_email login_request) true) ;;
      emit EDbCommit ;;
      do access_token <-
        call (ECreateAccessToken (user_id user)) (w_access_token w user);
      do refresh_token <-
        call (ECreateRefreshToken (user_id user)) (w_refresh_token w user);
      ret (JDict
             [ ("access_token", JStr access_token);
               ("refresh_token", JStr refresh_token);
               ("token_type", JStr "bearer");
               ("expires_in", JInt 86400);
               ("user_id", JStr (user_id user));
               ("email", JStr (user_email user));
               ("username", JStr (user_username user));
               ("role", JStr (user_role user)) ])
  end.

(** [AuthRegisterAdapter.handle]. [model_validate] is not wrapped here,
    so its [ValidationError] propagates as it is. *)
Definition register_handle (w : World) : M Json :=
  do payload <- call_exn EEnsureJsonBody (w_json_body w);
  do register_request <-
    (emit (EModelValidate "RegisterRequest") ;;
     match w_validate_register w payload with
     | inl errors => raise (ValidationError errors)
     | inr req => ret req
     end);
  do client_ip <- call EGetClientIp (w_client_ip w);
  do user_agent <- call EGetUserAgent (w_user_agent w);
  do (allowed, remaining, reset_after) <-
    call (ECheckLimit client_ip "register")
         (w_check_limit w client_ip "register");
  (if negb allowed then
     emit (ELogWarning ("注册请求超过速率限制: IP=" +:+ client_ip
                          +:+ ", 剩余=" +:+ str_of_int remaining)) ;;
     raise (HTTPException HTTP_429_TOO_MANY_REQUESTS
              ("注册请求过于频繁，请在 " +:+ str_of_int reset_after
                 +:+ " 秒后重试"))
   else ret tt) ;;
  do allow_registration <-
    call EQueryRegistrationSetting (w_registration_setting w);
  (match allow_registration with
   | Some false =>
       emit (EAuditEvent "UNAUTHORIZED_ACCESS"
               ("Registration attempt rejected - registration disabled: "
                  +:+ register_email register_request)) ;;
       emit EDbCommit ;;
       raise (HTTPException HTTP_403_FORBIDDEN "系统暂不开放注册")
   | _ => ret tt
   end) ;;
  do require_verification <-
    call (EGetConfig "require_email_verification")
         (w_require_email_verification w);
  (if require_verification then
     do is_verified <-
       call (EIsEmailVerified (register_email register_request))
            (w_is_email_verified w (register_email register_request));
     if negb is_verified then
       emit (ELogWarning ("注册失败：邮箱未验证: "
                            +:+ register_email register_request)) ;;
       raise (HTTPException HTTP_400_BAD_REQUEST
                "请先完成邮箱验证。请发送验证码并验证后再注册。")
     else ret tt
   else ret tt) ;;
  try_except
    (do user <-
       (emit (ECreateUser (register_email register_request)
                (register_username register_request)) ;;
        match w_create_user w (register_email register_request)
                (register_username register_request)
                (register_password register_request) with
        | inl msg => raise (ValueError msg)
        | inr user => ret user
        end);
     emit (EAuditEvent "USER_CREATED"
             ("User registered: " +:+ user_email user)) ;;
     (if require_verification then
        emit (EClearVerification (register_email register_request))
      else ret tt) ;;
     emit EDbCommit ;;
     ret (JDict
            [ ("user_id", JStr (user_id user));
              ("email", JStr (user_email user));
              ("username", JStr (user_username user));
              ("message", JStr "注册成功") ]))
    (fun exc =>
       match exc with
       | ValueError msg =>
           Some
             (emit (EAuditEvent "UNAUTHORIZED_ACCESS"
                      ("Registration failed: "
                         +:+ register_email register_request
                         +:+ " - " +:+ msg)) ;;
              emit EDbCommit ;;
              raise (HTTPException HTTP_400_BAD_REQUEST msg))
       | _ => None
       end).

(** [error_detail or code_or_error] *)
Definition detail_or (error_detail : option string) (code_or_error : string)
    : string :=
  match error_detail with
  | Some "" | None => code_or_error
  | Some d => d
  end.

(** [AuthSendVerificationCodeAdapter.handle] *)
Definition send_verification_code_handle (w : World) : M Json :=
  do payload <- call_exn EEnsureJsonBody (w_json_body w);
  do send_request <-
    validate_or_invalid "SendVerificationCodeRequest"
      (w_validate_send w payload);
  do client_ip <- call EGetClientIp (w_client_ip w);
  let email := send_email send_request in
  do (allowed, remaining, reset_after) <-
    call (ECheckLimit client_ip "verification_send")
         (w_check_limit w client_ip "verification_send");
  (if negb allowed then
     emit (ELogWarning ("验证码发送请求超过速率限制: IP=" +:+ client_ip
                          +:+ ", 剩余=" +:+ str_of_int remaining)) ;;
     raise (HTTPException HTTP_429_TOO_MANY_REQUESTS
              ("请求过于频繁，请在 " +:+ str_of_int reset_after
                 +:+ " 秒后重试"))
   else ret tt) ;;
  do expire_minutes <-
    call (EGetConfig "verification_code_expire_minutes")
         (w_verification_code_expire_minutes w);
  do existing_user <-
    call (EQueryUserByEmail email) (w_existing_user w email);
  if existing_user then
    emit (ELogWarning ("尝试为已注册邮箱发送验证码: " +:+ email)) ;;
    ret (JDict
           [ ("success", JBool true);
             ("message", JStr "验证码已发送");
             ("expire_minutes", JInt expire_minutes) ])
  else
    do (success, code_or_error, error_detail) <-
      call (ESendVerificationCode email expire_minutes)
           (w_send_verification_code w email expire_minutes);
    (if negb success then
       emit (ELogError ("发送验证码失败: " +:+ email +:+ ", 错误: "
                          +:+ code_or_error)) ;;
       raise (HTTPException HTTP_400_BAD_REQUEST
                (detail_or error_detail code_or_error))
     else ret tt) ;;
    do (email_success, email_error) <-
      call (ESendMail email code_or_error)
           (w_send_mail w email code_or_error expire_minutes);
    (if negb email_success then
       emit (ELogError ("发送验证码邮件失败: " +:+ email +:+ ", 错误: "
                          +:+ default "None" email_error)) ;;
       raise (HTTPException HTTP_500_INTERNAL_SERVER_ERROR
                "发送验证码失败，请稍后重试")
     else ret tt) ;;
    emit (ELogInfo ("验证码已发送: " +:+ email)) ;;
    ret (JDict
           [ ("message", JStr "验证码已发送，请查收邮件");
             ("success", JBool true);
             ("expire_minutes", JInt expire_minutes) ]).

(** [AuthVerifyEmailAdapter.handle] *)
Definition verify_email_handle (w : World) : M Json :=
  do payload <- call_exn EEnsureJsonBody (w_json_body w);
  do verify_request <-
    validate_or_invalid "VerifyEmailRequest" (w_validate_verify w payload);
  do client_ip <- call EGetClientIp (w_client_ip w);
  let email := verify_email verify_request in
  let code := verify_code verify_request in
  do (allowed, remaining, reset_after) <-
    call (ECheckLimit client_ip "verification_verify")
         (w_check_limit w client_ip "verification_verify");
  (if negb allowed then
     emit (ELogWarning ("验证码验证请求超过速率限制: IP=" +:+ client_ip
                          +:+ ", 剩余=" +:+ str_of_int remaining)) ;;
     raise (HTTPException HTTP_429_TOO_MANY_REQUESTS
              ("请求过于频繁，请在 " +:+ str_of_int reset_after
                 +:+ " 秒后重试"))
   else ret tt) ;;
  do (success, message) <-
    call (EVerifyCode email code) (w_verify_code w email code);
  (if negb success then
     emit (ELogWarning ("验证码验证失败: " +:+ email +:+ ", 原因: "
                          +:+ message)) ;;
     raise (HTTPException HTTP_400_BAD_REQUEST message)
   else ret tt) ;;
  emit (ELogInfo ("邮箱验证成功: " +:+ email)) ;;
  ret (JDict [ ("message", JStr "邮箱验证成功"); ("success", JBool true) ]).

(** The four rate-limited routes and their adapters. *)
Inductive Route : Type :=
| RouteLogin | RouteRegister | RouteSendCode | RouteVerifyEmail.

Definition handle (route : Route) : World -> M Json :=
  match route with
  | RouteLogin => login_handle
  | RouteRegister => register_handle
  | RouteSendCode => send_verification_code_handle
  | RouteVerifyEmail => verify_email_handle
  end.

(** The action name each adapter passes to [IPRateLimiter.check_limit]. *)
Definition limit_action (route : Route) : string :=
  match route with
  | RouteLogin => "login"
  | RouteRegister => "register"
  | RouteSendCode => "verification_send"
  | RouteVerifyEmail => "verification_verify"
  end.

Definition is_inr {E R} (v : E + R) : bool :=
  match v with inr _ => true | inl _ => false end.

(** The body was read and passed the route's request model, so the
    handler goes on to the limiter. *)
Definition body_accepted (route : Route) (w : World) : bool :=
  match w_json_body w with
  | inl _ => false
  | inr payload =>
      match route with
      | RouteLogin => is_inr (w_validate_login w payload)
      | RouteRegister => is_inr (w_validate_register w payload)
      | RouteSendCode => is_inr (w_validate_send w payload)
      | RouteVerifyEmail => is_inr (w_validate_verify w payload)
      end
  end.

(** Authentication, user creation, code sending and code verification. *)
Definition guarded (ev : Effect) : bool :=
  match ev with
  | EAuthenticateUser _ _ | ECreateUser _ _ | ESendVerificationCode _ _
  | ESendMail _ _ | EVerifyCode _ _ => true
  | _ => false
  end.

(** A request from 203.0.113.7 whose body is accepted on every route,
    with a limiter that answers [allowed] and 42 seconds to the reset. *)
Definition sample_world (allowed : bool) : World :=
  {| w_json_body := inr (JDict [("email", JStr "user@example.com")]);
     w_validate_login := fun _ =>
       inr {| login_email := "user@example.com";
              login_password := "secret" |};
     w_validate_register := fun _ =>
       inr {| register_email := "user@example.com";
              register_username := "user";
              register_password := "secret" |};
     w_validate_send := fun _ => inr {| send_email := "user@example.com" |};
     w_validate_verify := fun _ =>
       inr {| verify_email := "user@example.com"; verify_code := "123456" |};
     w_client_ip := "203.0.113.7";
     w_user_agent := "curl/8.0";
     w_check_limit := fun _ _ => (allowed, if allowed then 4 else 0, 42);
     w_authenticate_user := fun _ _ => None;
     w_access_token := fun _ => "access";
     w_refresh_token := fun _ => "refresh";
     w_registration_setting := Some true;
     w_require_email_verification := false;
     w_verification_code_expire_minutes := 30;
     w_is_email_verified := fun _ => false;
     w_create_user := fun email username _ =>
       inr {| user_id := "u-1"; user_email := email;
              user_username := username; user_role := "user";
              user_created_at := None |};
     w_existing_user := fun _ => false;
     w_send_verification_code := fun _ _ => (true, "123456", None);
     w_send_mail := fun _ _ _ => (true, None);
     w_verify_code := fun _ _ => (false, "验证码不存在或已过期") |}.

End AuthRoutes.

(** ** Concurrency counters *)

Module Concurrency.

(** Modelled from the spec: the concurrency manager
    ([src/services/rate_limit/concurrency_manager.py], obtained through
    [get_concurrency_manager] in [src/api/admin/endpoints/concurrency.py])
    is not among the sources. Its state is one integer counter per
    endpoint id and one per key id; an id with no entry counts zero. *)
Record Counters : Type := mkCounters {
  endpoint_counts : gmap string Z;
  key_counts : gmap string Z
}.

Definition no_traffic : Counters :=
  {| endpoint_counts := ∅; key_counts := ∅ |}.

Definition count (m : gmap string Z) (id : string) : Z :=
  default 0 (m !! id).

(** Modelled from the spec: the configured [max_concurrent] of each
    endpoint and key of the provider directory (absent or 0: unlimited). *)
Record Ceilings : Type := mkCeilings {
  endpoint_max : string -> option Z;
  key_max : string -> option Z
}.

Definition has_room (current_count : Z) (ceiling : option Z) : bool :=
  match ceiling with
  | None => true
  | Some n => (n =? 0) || (current_count <? n)
  end.

Inductive AdmissionResult : Type :=
| Granted
| DeniedEndpoint
| DeniedKey.

Definition increment (m : gmap string Z) (id : option string)
    : gmap string Z :=
  match id with
  | Some i => <[i := count m i + 1]> m
  | None => m
  end.

(** Decrement with the defensive floor at zero. *)
Definition decrement (m : gmap string Z) (id : option string)
    : gmap string Z :=
  match id with
  | Some i => <[i := Z.max 0 (count m i - 1)]> m
  | None => m
  end.

Definition zero (m : gmap string Z) (id : option string) : gmap string Z :=
  match id with
  | Some i => <[i := 0]> m
  | None => m
  end.

(** Modelled from the spec: [acquire(endpoint_id?, key_id?)] of the
    missing concurrency manager. Both ceilings are checked first; both
    counters are incremented when both checks pass, and nothing changes
    on denial. *)
Definition acquire (cfg : Ceilings) (st : Counters)
    (endpoint_id key_id : option string) : AdmissionResult * Counters :=
  let endpoint_ok :=
    match endpoint_id with
    | Some e => has_room (count (endpoint_counts st) e) (endpoint_max cfg e)
    | None => true
    end in
  let key_ok :=
    match key_id with
    | Some k => has_room (count (key_counts st) k) (key_max cfg k)
    | None => true
    end in
  if negb endpoint_ok then (DeniedEndpoint, st)
  else if negb key_ok then (DeniedKey, st)
  else
    (Granted,
     {| endpoint_counts := increment (endpoint_counts st) endpoint_id;
        key_counts := increment (key_counts st) key_id |}).

(** Modelled from the spec: [release(endpoint_id?, key_id?)] of the
    missing concurrency manager: decrements the named counters and never
    goes below zero. *)
Definition release (st : Counters) (endpoint_id key_id : option string)
    : Counters :=
  {| endpoint_counts := decrement (endpoint_counts st) endpoint_id;
     key_counts := decrement (key_counts st) key_id |}.

(** Modelled from the spec: [current(endpoint_id?, key_id?)], the pair
    (endpoint_count, key_count) that [get_current_concurrency] returns. *)
Definition current (st : Counters) (endpoint_id key_id : option string)
    : Z * Z :=
  (from_option (count (endpoint_counts st)) 0 endpoint_id,
   from_option (count (key_counts st)) 0 key_id).

(** Modelled from the spec: [reset(endpoint_id?, key_id?)], which sets
    the named counters to zero ([reset_concurrency]). *)
Definition reset (st : Counters) (endpoint_id key_id : option string)
    : Counters :=
  {| endpoint_counts := zero (endpoint_counts st) endpoint_id;
     key_counts := zero (key_counts st) key_id |}.

(** Calls on the manager, and a run of them. *)
Inductive Op : Type :=
| OpAcquire (endpoint_id key_id : option string)
| OpRelease (endpoint_id key_id : option string)
| OpReset (endpoint_id key_id : option string).

Definition step (cfg : Ceilings) (st : Counters) (op : Op) : Counters :=
  match op with
  | OpAcquire e k => snd (acquire cfg st e k)
  | OpRelease e k => release st e k
  | OpReset e k => reset st e k
  end.

Definition run (cfg : Ceilings) (st : Counters) (ops : list Op) : Counters :=
  fold_left (step cfg) ops st.

Definition map_nonneg (m : gmap string Z) : Prop :=
  forall id, 0 <= count m id.

(** Every counter of the state is at least zero. *)
Definition nonneg (st : Counters) : Prop :=
  forall id, 0 <= count (endpoint_counts st) id
             /\ 0 <= count (key_counts st) id.

End Concurrency.

(** ** The other operations of [EmailVerificationService] *)

Module EmailVerificationOps.

Import EmailVerification.

(** [EXISTS key] *)
Definition redis_exists (r : gmap string RedisEntry) (key : string) : bool :=
  match r !! key with
  | Some _ => true
  | None => false
  end.

(** [EXPIRE key seconds] with positive [seconds]: a missing key is left
    missing. *)
Definition redis_expire (r : gmap string RedisEntry) (key : string)
    (seconds : Z) : gmap string RedisEntry :=
  match r !! key with
  | Some e => <[key := {| value := value e; ttl_seconds := seconds |}]> r
  | None => r
  end.

(** The character ["0"] (code 48). *)
Definition zero_char : Ascii.ascii :=
  Ascii.Ascii false false false false true true false false.

Fixpoint zeros (n : nat) : string :=
  match n with
  | O => ""
  | S k => String zero_char (zeros k)
  end.

Definition pad_zeros (width : nat) (digits : string) : string :=
  zeros (width - String.length digits) +:+ digits.

(** The format [f"{n:06d}"]: decimal digits, zero-padded to six
    characters, the sign counting as one of them. *)
Definition format_06d (n : Z) : string :=
  if n <? 0 then "-" +:+ pad_zeros 5 (str_of_int (- n))
  else pad_zeros 6 (str_of_int n).

(** Every character is one of ["0"] ... ["9"]. *)
Fixpoint all_digits (s : string) : bool :=
  match s with
  | EmptyString => true
  | String c rest =>
      (48 <=? Ascii.nat_of_ascii c)%nat && (Ascii.nat_of_ascii c <=? 57)%nat
      && all_digits rest
  end.

(** [_generate_code]; [draw] is what [secrets.randbelow(1000000)]
    returned. *)
Definition _generate_code (draw : Z) : string := format_06d draw.

(** [is_email_verified(email)] *)
Definition is_email_verified (client : option (gmap string RedisEntry))
    (email : string) : bool :=
  match client with
  | None => false
  | Some r => redis_exists r (VERIFIED_PREFIX +:+ email)
  end.

(** [clear_verification(email)]: the returned flag and the store after. *)
Definition clear_verification (client : option (gmap string RedisEntry))
    (email : string) : bool * option (gmap string RedisEntry) :=
  match client with
  | None => (false, None)
  | Some r =>
      let verified_key := VERIFIED_PREFIX +:+ email in
      let verification_key := VERIFICATION_PREFIX +:+ email in
      let r := redis_delete r verified_key in
      let r := redis_delete r verification_key in
      (true, Some r)
  end.

(** What raises inside the [try] block of [send_verification_code] while
    the server answers every command. *)
Inductive SendFailure : Type :=
| BadSendCount      (* int(send_count) *)
| BadPendingData    (* json.loads(existing_data) and its subscripts *)
| BadCreatedAt      (* datetime.fromisoformat, or the subtraction *)
| BadExpireTime     (* SETEX refused *)
| IncrFailed.       (* INCR refused *)

Section Send.

(** Python's [int(s)] on a [str]. *)
Variable py_int_of_str : string -> option Z.

(** How the Redis server reads a string value as a 64-bit integer. *)
Variable redis_int_of_str : string -> option Z.

(** Instants are microseconds since the epoch, in UTC. [isoformat t] is
    [datetime.isoformat()] of the instant [t]; [fromisoformat s] is the
    instant [datetime.fromisoformat(s)] denotes, or [None] when parsing
    raises or the value cannot be subtracted from an aware datetime. *)
Variable isoformat : Z -> string.
Variable fromisoformat : string -> option Z.

(** [str(e)] of the exception raised. *)
Variable exception_text : SendFailure -> string.

(** Whether the server can keep a key for this many seconds. A positive
    lifetime is still refused when it does not fit the server's 64-bit
    millisecond clock; where that bound lies depends on the server's
    version and on its clock, so it is left open. *)
Variable setex_accepts : Z -> bool.

(** [int(60 - elapsed)] as float arithmetic gives it for a [created_at]
    that lies in the future, [elapsed] being that (negative) number of
    microseconds: far enough in the future the rounding of
    [total_seconds()] and of the subtraction shows in the integer part, so
    the value is left open. *)
Variable skewed_seconds_left : Z -> Z.

(** [SETEX] as the server checks it: a lifetime that is not positive is
    refused ("invalid expire time"), and so is one the server cannot
    keep; the client raises in both cases. *)
Definition redis_setex_checked (r : gmap string RedisEntry) (key : string)
    (seconds : Z) (v : RedisValue) : option (gmap string RedisEntry) :=
  if (0 <? seconds) && setex_accepts seconds
  then Some (redis_setex r key seconds v) else None.

(** [INCR key]: the new count and the store after, or [None] when the
    server answers with an error. A missing key counts from zero and gets
    no expiry; an existing key keeps its expiry. *)
Definition redis_incr (r : gmap string RedisEntry) (key : string)
    : option (Z * gmap string RedisEntry) :=
  match r !! key with
  | None => Some (1, <[key := {| value := RText "1"; ttl_seconds := -1 |}]> r)
  | Some e =>
      match value e with
      | RText s =>
          match redis_int_of_str s with
          | Some n =>
              if n <? 2 ^ 63 - 1 then
                Some (n + 1,
                      <[key := {| value := RText (str_of_int (n + 1));
                                  ttl_seconds := ttl_seconds e |}]> r)
              else None
          | None => None
          end
      | RData _ => None
      end
  end.

Definition system_error (e : SendFailure)
    (r : gmap string RedisEntry)
    : (bool * string * option string) * option (gmap string RedisEntry) :=
  ((false, "系统错误", Some (exception_text e)), Some r).

(** [send_verification_code(email, expire_minutes)]. [now_check] and
    [now_store] are the two readings of [datetime.now(timezone.utc)],
    [draw] the random number behind the code.

    The server is taken to answer every command: a command raises only
    where the server refuses it ([SETEX] with a lifetime it does not
    accept, [INCR] on a value that is not a 64-bit integer). A connection
    that breaks in the middle of the call is not modelled.

    The elapsed time is a float of seconds in the source,
    [total_seconds()] being the correctly rounded quotient of the whole
    microseconds by [10**6]. Rounding is monotone and 60 is a float, so
    [elapsed < 60] is the comparison of the microseconds with sixty
    million. For [0 <= elapsed < 60] the two roundings move the value by
    less than [1e-13] while its distance to the next integer is at least
    [1e-6] unless it is an integer itself (and then both operations are
    exact), so [int(60 - elapsed)] is the integer quotient below. For a
    [created_at] in the future the float result is [skewed_seconds_left]. *)
Definition send_verification_code (client : option (gmap string RedisEntry))
    (email : string) (expire_minutes : option Z)
    (now_check now_store draw : Z)
    : (bool * string * option string) * option (gmap string RedisEntry) :=
  match client with
  | None => ((false, "系统错误", Some "Redis 服务不可用"), None)
  | Some r =>
      let send_limit_key := SEND_LIMIT_PREFIX +:+ email in
      let verification_key := VERIFICATION_PREFIX +:+ email in
      (* the part after the cooldown check *)
      let store_code :=
        let code := _generate_code draw in
        let expire_time :=
          match expire_minutes with
          | None | Some 0 => DEFAULT_CODE_EXPIRE_MINUTES
          | Some m => m
          end in
        let verification_data :=
          {| code := code; attempts := 0;
             created_at := isoformat now_store |} in
        match redis_setex_checked r verification_key (expire_time * 60)
                (RData verification_data) with
        | None => system_error BadExpireTime r
        | Some r =>
            match redis_incr r send_limit_key with
            | None => system_error IncrFailed r
            | Some (current_count, r) =>
                let r :=
                  if current_count =? 1
                  then redis_expire r send_limit_key 3600 else r in
                ((true, code, None), Some r)
            end
        end in
      (* the part after the send-count check *)
      let check_cooldown :=
        match redis_get r verification_key with
        | None | Some (RText "") => store_code
        | Some (RText _) => system_error BadPendingData r
        | Some (RData data) =>
            match fromisoformat (created_at data) with
            | None => system_error BadCreatedAt r
            | Some created =>
                let elapsed := now_check - created in
                if elapsed <? SEND_COOLDOWN_SECONDS * 1000000 then
                  let remaining :=
                    if 0 <=? elapsed
                    then (SEND_COOLDOWN_SECONDS * 1000000 - elapsed) / 1000000
                    else skewed_seconds_left elapsed in
                  ((false, "请求过于频繁",
                    Some ("请在 " +:+ str_of_int remaining +:+ " 秒后重试")),
                   Some r)
                else store_code
            end
        end in
      match redis_get r send_limit_key with
      | None | Some (RText "") => check_cooldown
      | Some (RData _) => system_error BadSendCount r
      | Some (RText s) =>
          match py_int_of_str s with
          | None => system_error BadSendCount r
          | Some send_count =>
              if SEND_LIMIT_PER_HOUR <=? send_count then
                ((false, "发送次数过多", Some "每小时最多发送 5 次验证码"),
                 Some r)
              else check_cooldown
          end
      end
  end.

(** The send counter lets a request through: the key is missing or
    empty, or Python reads a number below the hourly limit in it. *)
Definition below_send_limit (r : gmap string RedisEntry) (email : string)
    : bool :=
  match redis_get r (SEND_LIMIT_PREFIX +:+ email) with
  | None | Some (RText "") => true
  | Some (RText s) =>
      match py_int_of_str s with
      | Some n => n <? SEND_LIMIT_PER_HOUR
      | None => false
      end
  | Some (RData _) => false
  end.

End Send.

(** [expire_minutes or DEFAULT_CODE_EXPIRE_MINUTES] *)
Definition expire_time_of (expire_minutes : option Z) : Z :=
  match expire_minutes with
  | None | Some 0 => DEFAULT_CODE_EXPIRE_MINUTES
  | Some m => m
  end.

End EmailVerificationOps.

(** ** Sample requests for the auth handlers *)

Module AuthRoutesSamples.

Import AuthRoutes.

(** The sample request with another answer from the request models and
    from the user table. *)
Definition sample_world_with (valid existing : bool) : World :=
  let w := sample_world true in
  let errors : list (list string * string) :=
    [(["email"], "field required")] in
  {| w_json_body := w_json_body w;
     w_validate_login := fun p =>
       if valid then w_validate_login w p else inl errors;
     w_validate_register := fun p =>
       if valid then w_validate_register w p else inl errors;
     w_validate_send := fun p =>
       if valid then w_validate_send w p else inl errors;
     w_validate_verify := fun p =>
       if valid then w_validate_verify w p else inl errors;
     w_client_ip := w_client_ip w;
     w_user_agent := w_user_agent w;
     w_check_limit := w_check_limit w;
     w_authenticate_user := w_authenticate_user w;
     w_access_token := w_access_token w;
     w_refresh_token := w_refresh_token w;
     w_registration_setting := w_registration_setting w;
     w_require_email_verification := w_require_email_verification w;
     w_verification_code_expire_minutes :=
       w_verification_code_expire_minutes w;
     w_is_email_verified := w_is_email_verified w;
     w_create_user := w_create_user w;
     w_existing_user := fun _ => existing;
     w_send_verification_code := w_send_verification_code w;
     w_send_mail := w_send_mail w;
     w_verify_code := w_verify_code w |}.

End AuthRoutesSamples.

(** ** [EmailSenderService]: configuration check and SMTP delivery *)

Module EmailSender.

(** Python truthiness of a configuration value. *)
Definition py_truthy (v : Json) : bool :=
  match v with
  | JNull => false
  | JBool b => b
  | JInt z => negb (z =? 0)
  | JStr s => negb (String.eqb s "")
  | JList items => negb (Nat.eqb (length items) 0)
  | JDict fields => negb (Nat.eqb (length fields) 0)
  end.

(** [_validate_smtp_config(config)]: the first required field that is
    missing or falsy is reported. *)
Definition _validate_smtp_config (config : gmap string Json)
    : bool * option string :=
  let required_fields := ["smtp_host"; "smtp_from_email"] in
  let fix check (fields : list string) : bool * option string :=
    match fields with
    | [] => (true, None)
    | field :: rest =>
        if negb (from_option py_truthy false (config !! field))
        then (false, Some ("缺少必要的 SMTP 配置: " +:+ field))
        else check rest
    end in
  check required_fields.

(** The MIME message handed to the server. *)
Record Message : Type := mkMessage {
  msg_subject : string;
  msg_from : string;
  msg_to : string;
  (** the attached parts: (subtype, body), in order of attachment *)
  msg_parts : list (string * string)
}.

(** What the sender does to the outside, in order. *)
Inductive SmtpEffect : Type :=
| SConnect (ssl : bool) (host port : Json)   (* SMTP_SSL(...) / SMTP(...) *)
| SStartTls
| SLogin (user password : Json)
| SSendMessage (message : Message)
| SQuit
| SLogInfo (msg : string)
| SLogWarning (msg : string)
| SLogError (msg : string).

(** How the server answers: for each command, [None] when it succeeds
    and the text [str(e)] of the exception when it raises. *)
Record SmtpServer : Type := mkSmtpServer {
  connect_error : option string;
  starttls_error : option string;
  login_error : option string;
  send_error : option string;
  quit_error : option string
}.

(** A computation that logs effects and may raise; an exception is
    kept as its text [str(e)], the only thing the sender reads of it. *)
Definition Run (A : Type) : Type :=
  list SmtpEffect -> list SmtpEffect * (string + A).

Definition done {A} (a : A) : Run A := fun t => (t, inr a).

Definition fail {A} (text : string) : Run A := fun t => (t, inl text).

Definition seq {A B} (m : Run A) (k : A -> Run B) : Run B :=
  fun t =>
    match m t with
    | (t', inl e) => (t', inl e)
    | (t', inr a) => k a t'
    end.

Definition effect (ev : SmtpEffect) : Run unit := fun t => (t ++ [ev], inr tt).

(** [try: m finally: cleanup], for a cleanup that does not raise. *)
Definition finally {A} (m : Run A) (cleanup : Run unit) : Run A :=
  fun t =>
    match m t with
    | (t', r) => (fst (cleanup t'), r)
    end.

Declare Scope run_scope.
Delimit Scope run_scope with run.
Notation "'let!' x := m 'in' k" := (seq m (fun x => k))
  (at level 10, x pattern, m at level 99, k at level 200) : run_scope.
Notation "m >> k" := (seq m (fun _ => k))
  (at level 100, k at level 200, right associativity) : run_scope.
#[local] Open Scope run_scope.

(** A server command. *)
Definition command (ev : SmtpEffect) (error : option string) : Run unit :=
  effect ev >>
  match error with
  | Some text => fail text
  | None => done tt
  end.

Section WithFormatting.

(** [str(v)] of a list or dictionary (their [repr]), which the sender
    never meets in practice. *)
Variable py_repr : Json -> string.

(** [str(v)] as an f-string renders a configuration value. *)
Definition py_str (v : Json) : string :=
  match v with
  | JNull => "None"
  | JBool true => "True"
  | JBool false => "False"
  | JInt z => str_of_int z
  | JStr s => s
  | JList _ | JDict _ => py_repr v
  end.

Variable config : gmap string Json.

(** [config[key]]: a missing key raises [KeyError], whose text is the
    quoted key. *)
Definition subscript (key : string) : Run Json :=
  match config !! key with
  | Some v => done v
  | None => fail ("'" +:+ key +:+ "'")
  end.

(** The message-building lines shared by both senders. *)
Definition build_message (to_email subject : string)
    (html_body text_body : option string) : Run Message :=
  let! from_name := subscript "smtp_from_name" in
  let! from_email := subscript "smtp_from_email" in
  let text_part :=
    match text_body with
    | Some (String _ _ as body) => [("plain", body)]
    | _ => []
    end in
  let html_part :=
    match html_body with
    | Some (String _ _ as body) => [("html", body)]
    | _ => []
    end in
  done {| msg_subject := subject;
          msg_from := py_str from_name +:+ " <" +:+ py_str from_email +:+ ">";
          msg_to := to_email;
          msg_parts := text_part ++ html_part |}.

(** [_send_email_sync]: the returned pair together with the effects. *)
Definition _send_email_sync (server : SmtpServer)
    (to_email subject : string) (html_body text_body : option string)
    : list SmtpEffect * (bool * option string) :=
  let quit : Run unit :=
    fun t =>
      match command SQuit (quit_error server) t with
      | (t', inl quit_text) =>
          effect (SLogWarning ("关闭 SMTP 连接时出错: " +:+ quit_text)) t'
      | r => r
      end in
  let body : Run (bool * option string) :=
    let! message := build_message to_email subject html_body text_body in
    (* inside the inner try: [server] is None until a constructor returns *)
    let! use_ssl := subscript "smtp_use_ssl" in
    let! host := subscript "smtp_host" in
    let! port := subscript "smtp_port" in
    command (SConnect (py_truthy use_ssl) host port) (connect_error server) >>
    finally
      ((if py_truthy use_ssl then done tt
        else
          let! use_tls := subscript "smtp_use_tls" in
          if py_truthy use_tls
          then command SStartTls (starttls_error server) else done tt) >>
       let! user := subscript "smtp_user" in
       (if py_truthy user then
          let! password := subscript "smtp_password" in
          if py_truthy password
          then command (SLogin user password) (login_error server)
          else done tt
        else done tt) >>
       command (SSendMessage message) (send_error server) >>
       effect (SLogInfo ("验证码邮件发送成功（同步方式）: " +:+ to_email)) >>
       done (true, None))
      quit in
  match body [] with
  | (t, inr result) => (t, result)
  | (t, inl text) =>
      let error_msg := "发送邮件失败: " +:+ text in
      (t ++ [SLogError error_msg], (false, Some error_msg))
  end.

End WithFormatting.

(** The sender's SMTP commands, as opposed to its log lines. *)
Definition is_smtp (ev : SmtpEffect) : bool :=
  match ev with
  | SConnect _ _ _ | SStartTls | SLogin _ _ | SSendMessage _ | SQuit => true
  | _ => false
  end.

Definition is_quit (ev : SmtpEffect) : bool :=
  match ev with SQuit => true | _ => false end.

Definition is_connect (ev : SmtpEffect) : bool :=
  match ev with SConnect _ _ _ => true | _ => false end.

Definition is_send (ev : SmtpEffect) : bool :=
  match ev with SSendMessage _ => true | _ => false end.

End EmailSender.

(** ** The session handlers of [src/api/auth/routes.py]: refresh, change
       password, logout *)

Module AuthAccount.

Import AuthRoutes.

(** The row of the [User] table these handlers read. *)
Record Account : Type := mkAccount {
  account_id : string;
  account_email : string;
  account_role : string;
  account_created_at : option string;
  account_is_active : bool
}.

(** Calls into the collaborators, in the order they are made. *)
Inductive Effect : Type :=
| AEnsureJsonBody
| AModelValidate (model_name : string)
| AGetClientIp
| AGetUserAgent
| AVerifyToken (token token_type : string)
| AQueryUserById (uid : Json)
| ACreateAccessToken (uid : string)
| ACreateRefreshToken (uid : string)
| AVerifyPassword (password : Json)
| ASetPassword (password : Json)
| ADbCommit
| AGetHeader (name : string)
| ALogout (token : string)
| AAuditEvent (event_type description : string)
| ALogInfo (msg : string)
| ALogWarning (msg : string)
| ALogError (msg : string).

Definition M (A : Type) : Type := list Effect -> list Effect * (Exn + A).

Definition ret {A} (a : A) : M A := fun t => (t, inr a).

Definition bind {A B} (m : M A) (k : A -> M B) : M B :=
  fun t =>
    match m t with
    | (t', inl e) => (t', inl e)
    | (t', inr a) => k a t'
    end.

Definition raise {A} (e : Exn) : M A := fun t => (t, inl e).

Definition emit (ev : Effect) : M unit := fun t => (t ++ [ev], inr tt).

Definition run {A} (m : M A) : list Effect * (Exn + A) := m [].

Declare Scope account_scope.
Delimit Scope account_scope with account.
Notation "'do' x <- m ; k" := (bind m (fun x => k))
  (at level 10, x pattern, m at level 99, k at level 200) : account_scope.
Notation "m ;; k" := (bind m (fun _ => k))
  (at level 100, k at level 200, right associativity) : account_scope.
#[local] Open Scope account_scope.

Definition call {A} (ev : Effect) (a : A) : M A := emit ev ;; ret a.

Definition call_exn {A} (ev : Effect) (r : Exn + A) : M A :=
  emit ev ;; match r with inl e => raise e | inr a => ret a end.

(** Python truthiness of a JSON value. *)
Definition truthy (v : Json) : bool :=
  match v with
  | JNull => false
  | JBool b => b
  | JInt z => negb (z =? 0)
  | JStr s => negb (String.eqb s "")
  | JList items => negb (Nat.eqb (length items) 0)
  | JDict fields => negb (Nat.eqb (length fields) 0)
  end.

(** The number of characters of a [str] kept as UTF-8 bytes: the bytes
    that are not continuation bytes ([10xxxxxx]). *)
Fixpoint char_count (s : string) : Z :=
  match s with
  | EmptyString => 0
  | String (Ascii.Ascii _ _ _ _ _ _ b6 b7) rest =>
      (if b7 && negb b6 then 0 else 1) + char_count rest
  end.

(** [len(v)], or the message of the [TypeError] it raises for a value
    without length. *)
Definition py_len_of (v : Json) : string + Z :=
  match v with
  | JStr s => inr (char_count s)
  | JList items => inr (Z.of_nat (length items))
  | JDict fields => inr (Z.of_nat (length fields))
  | JNull => inl "object of type 'NoneType' has no len()"
  | JBool _ => inl "object of type 'bool' has no len()"
  | JInt _ => inl "object of type 'int' has no len()"
  end.

(** [s.replace(old, new)] for a non-empty [old]: occurrences are found
    from the left and do not overlap. [skip] counts the characters of the
    occurrence just replaced that are still to be dropped. *)
Fixpoint replace_from (old new : string) (skip : nat) (s : string) : string :=
  match s with
  | EmptyString => EmptyString
  | String c rest =>
      match skip with
      | S k => replace_from old new k rest
      | O =>
          if String.prefix old s
          then new +:+ replace_from old new (String.length old - 1) rest
          else String c (replace_from old new 0 rest)
      end
  end.

Definition py_replace (old new s : string) : string :=
  replace_from old new 0 s.

(** [old in s] *)
Fixpoint occurs (old s : string) : bool :=
  match s with
  | EmptyString => String.prefix old EmptyString
  | String _ rest => String.prefix old s || occurs old rest
  end.

(** What the collaborators answer during one request of a logged-in
    user. *)
Record World : Type := mkWorld {
  w_json_body : Exn + Json;
  (** [RefreshTokenRequest.model_validate]: the errors, or the
      [refresh_token] field *)
  w_validate_refresh : Json -> list (list string * string) + string;
  w_client_ip : string;
  w_user_agent : string;
  (** [AuthService.verify_token]: what it raises, or the [user_id] entry
      of the payload it returns ([None] when the key is missing) *)
  w_verify_token : string -> Exn + option Json;
  w_user_by_id : Json -> option Account;
  w_access_token : Account -> string;
  w_refresh_token : Account -> string;
  (** [context.user] *)
  w_current_user : Account;
  (** [user.verify_password] *)
  w_verify_password : Json -> Exn + bool;
  (** the [Authorization] header *)
  w_authorization : option string;
  (** [AuthService.logout] *)
  w_logout : string -> bool;
  (** [str(exc)] of the exception caught *)
  w_exception_text : Exn -> string
}.

(** [AuthRefreshAdapter.handle] *)
Definition refresh_handle (w : World) : M Json :=
  do payload <- call_exn AEnsureJsonBody (w_json_body w);
  do refresh_token <-
    (emit (AModelValidate "RefreshTokenRequest") ;;
     match w_validate_refresh w payload with
     | inl errors => raise (ValidationError errors)
     | inr token => ret token
     end);
  do client_ip <- call AGetClientIp (w_client_ip w);
  do user_agent <- call AGetUserAgent (w_user_agent w);
  let attempt : M Json :=
    do user_id <-
      call_exn (AVerifyToken refresh_token "refresh")
        (w_verify_token w refresh_token);
    match user_id with
    | None => raise (HTTPException HTTP_401_UNAUTHORIZED "无效的刷新令牌")
    | Some uid =>
        if negb (truthy uid) then
          raise (HTTPException HTTP_401_UNAUTHORIZED "无效的刷新令牌")
        else
          do user <- call (AQueryUserById uid) (w_user_by_id w uid);
          match user with
          | None =>
              raise (HTTPException HTTP_401_UNAUTHORIZED "无效的刷新令牌")
          | Some user =>
              if negb (account_is_active user) then
                raise (HTTPException HTTP_403_FORBIDDEN "用户已禁用")
              else
                do new_access_token <-
                  call (ACreateAccessToken (account_id user))
                       (w_access_token w user);
                do new_refresh_token <-
                  call (ACreateRefreshToken (account_id user))
                       (w_refresh_token w user);
                emit (ALogInfo ("令牌刷新成功: " +:+ account_email user)) ;;
                ret (JDict
                       [ ("access_token", JStr new_access_token);
                         ("refresh_token", JStr new_refresh_token);
                         ("token_type", JStr "bearer");
                         ("expires_in", JInt 86400) ])
          end
    end in
  (* except HTTPException: raise / except Exception as exc: ... *)
  fun t =>
    match attempt t with
    | (t', inl (HTTPException code detail)) =>
        (t', inl (HTTPException code detail))
    | (t', inl exc) =>
        (emit (ALogError ("刷新令牌失败: " +:+ w_exception_text w exc)) ;;
         raise (HTTPException HTTP_401_UNAUTHORIZED "刷新令牌失败")) t'
    | r => r
    end.

(** [AuthChangePasswordAdapter.handle]; the body is a JSON object. *)
Definition change_password_handle (w : World) : M Json :=
  do payload <- call_exn AEnsureJsonBody (w_json_body w);
  let old_password := default JNull (jget "old_password" payload) in
  let new_password := default JNull (jget "new_password" payload) in
  (if negb (truthy old_password) || negb (truthy new_password)
   then raise (HTTPException 400 "必须提供旧密码和新密码")
   else ret tt) ;;
  let user := w_current_user w in
  do verified <-
    call_exn (AVerifyPassword old_password) (w_verify_password w old_password);
  (if negb verified
   then raise (HTTPException HTTP_400_BAD_REQUEST "旧密码错误")
   else ret tt) ;;
  (* a [TypeError] of [len] has no constructor of its own in [Exn]; it is
     carried as a [BodyError] with its message *)
  do length <-
    match py_len_of new_password with
    | inl message => raise (BodyError message)
    | inr n => ret n
    end;
  (if length <? 8
   then raise (InvalidRequestException "密码长度至少8位")
   else ret tt) ;;
  emit (ASetPassword new_password) ;;
  emit ADbCommit ;;
  emit (ALogInfo ("用户修改密码: " +:+ account_email user)) ;;
  ret (JDict [("message", JStr "密码修改成功")]).

(** [AuthLogoutAdapter.handle] *)
Definition logout_handle (w : World) : M Json :=
  let user := w_current_user w in
  do client_ip <- call AGetClientIp (w_client_ip w);
  do auth_header <- call (AGetHeader "Authorization") (w_authorization w);
  do header <-
    match auth_header with
    | Some (String _ _ as h) =>
        if String.prefix "Bearer " h then ret h
        else raise (HTTPException HTTP_401_UNAUTHORIZED "缺少认证令牌")
    | _ => raise (HTTPException HTTP_401_UNAUTHORIZED "缺少认证令牌")
    end;
  let token := py_replace "Bearer " "" header in
  do success <- call (ALogout token) (w_logout w token);
  if success then
    emit AGetUserAgent ;;
    emit (AAuditEvent "LOGOUT" ("User logged out: " +:+ account_email user)) ;;
    emit ADbCommit ;;
    emit (ALogInfo ("用户登出成功: " +:+ account_email user)) ;;
    ret (JDict [("message", JStr "登出成功"); ("success", JBool true)])
  else
    emit (ALogWarning ("用户登出失败（Redis不可用）: "
                         +:+ account_email user)) ;;
    ret (JDict [("message", JStr "登出成功（降级模式）");
                ("success", JBool false)]).

(** A request of an active user with a valid refresh token, a matching
    old password and a well-formed [Authorization] header. *)
Definition sample_account : Account :=
  {| account_id := "u-1";
     account_email := "user@example.com";
     account_role := "user";
     account_created_at := None;
     account_is_active := true |}.

Definition sample_session : World :=
  {| w_json_body :=
       inr (JDict [ ("refresh_token", JStr "r-1");
                    ("old_password", JStr "old-secret");
                    ("new_password", JStr "new-secret") ]);
     w_validate_refresh := fun _ => inr "r-1";
     w_client_ip := "203.0.113.7";
     w_user_agent := "curl/8";
     w_verify_token := fun _ => inr (Some (JStr "u-1"));
     w_user_by_id := fun _ => Some sample_account;
     w_access_token := fun _ => "access-2";
     w_refresh_token := fun _ => "refresh-2";
     w_current_user := sample_account;
     w_verify_password := fun _ => inr true;
     w_authorization := Some "Bearer access-1";
     w_logout := fun _ => true;
     w_exception_text := fun _ => "" |}.

End AuthAccount.

(** * Properties *)

(** ** The attempt context *)

Section StreamContextFacts.

Import StreamCtx.

(* Case analysis on the guards, innermost first: a later guard reads a
   counter of the context an earlier one produced. *)
Ltac split_guards :=
  repeat match goal with
         | |- context [if ?b then _ else _] =>
             lazymatch b with
             | context [if _ then _ else _] => fail
             | _ => destruct b; cbn
             end
         end.

Lemma update_usage_input_tokens self i o c cc :
  input_tokens (update_usage self i o c cc) = merged i (input_tokens self).
Proof.
  unfold update_usage, merged.
  destruct i, o, c, cc; cbn; split_guards; reflexivity.
Qed.

Lemma update_usage_output_tokens self i o c cc :
  output_tokens (update_usage self i o c cc) = merged o (output_tokens self).
Proof.
  unfold update_usage, merged.
  destruct i, o, c, cc; cbn; split_guards; reflexivity.
Qed.

Lemma update_usage_cached_tokens self i o c cc :
  cached_tokens (update_usage self i o c cc) = merged c (cached_tokens self).
Proof.
  unfold update_usage, merged.
  destruct i, o, c, cc; cbn; split_guards; reflexivity.
Qed.

Lemma update_usage_cache_creation_tokens self i o c cc :
  cache_creation_tokens (update_usage self i o c cc)
  = merged cc (cache_creation_tokens self).
Proof.
  unfold update_usage, merged.
  destruct i, o, c, cc; cbn; split_guards; reflexivity.
Qed.

Lemma merged_policy arg stored :
  overwrite_policy arg stored (merged arg stored).
Proof.
  destruct arg as [v|]; cbn; [|reflexivity].
  destruct (Z.ltb_spec 0 v), (Z.eqb_spec stored 0); cbn;
    split; intros; try reflexivity; lia.
Qed.

(** C1. For every context and every call of [update_usage], each of the
    four counters obeys the overwrite policy: an argument of [None]
    leaves the stored value as it was; any other argument replaces the
    stored value exactly when it is strictly positive or the stored value
    is zero, and otherwise the stored value stays. *)
Theorem update_usage_defensive_merge self i o c cc :
  let self' := update_usage self i o c cc in
  overwrite_policy i (input_tokens self) (input_tokens self')
  /\ overwrite_policy o (output_tokens self) (output_tokens self')
  /\ overwrite_policy c (cached_tokens self) (cached_tokens self')
  /\ overwrite_policy cc (cache_creation_tokens self)
       (cache_creation_tokens self').
Proof.
  cbv zeta.
  rewrite update_usage_input_tokens, update_usage_output_tokens,
    update_usage_cached_tokens, update_usage_cache_creation_tokens.
  repeat split; apply merged_policy.
Qed.

(** C2. Right after [reset_for_retry] the four token counters are zero,
    [collected_text] is empty, [error_message] is [None], [status_code]
    is the default 200 of a newly built context, and [model] and
    [api_format] are what they were before the call. *)
Theorem reset_for_retry_clears_accounting self :
  let self' := reset_for_retry self in
  input_tokens self' = 0
  /\ output_tokens self' = 0
  /\ cached_tokens self' = 0
  /\ cache_creation_tokens self' = 0
  /\ collected_text self' = ""
  /\ error_message self' = None
  /\ status_code self' = 200
  /\ status_code self' = status_code (fresh (model self) (api_format self))
  /\ model self' = model self
  /\ api_format self' = api_format self.
Proof. cbn. repeat split. Qed.

(** The fields [reset_for_retry] has no assignment for keep their value,
    whatever it is. *)
Lemma reset_for_retry_frame self :
  let self' := reset_for_retry self in
  provider_name self' = provider_name self
  /\ provider_id self' = provider_id self
  /\ endpoint_id self' = endpoint_id self
  /\ key_id self' = key_id self
  /\ attempt_id self' = attempt_id self
  /\ provider_api_format self' = provider_api_format self
  /\ mapped_model self' = mapped_model self.
Proof. cbn. repeat split. Qed.

(** C3. [reset_for_retry] is documented to keep [model] and [api_format]
    and reset every other field, but a context bound to a provider keeps
    [provider_name], [provider_id], [endpoint_id], [key_id], [attempt_id],
    [provider_api_format] and [mapped_model] across the call, so the
    result is not the newly built context. *)
Theorem reset_for_retry_keeps_provider_binding :
  let ctx :=
    {| model := "claude-sonnet"; api_format := "CLAUDE";
       provider_name := Some "acme"; provider_id := Some "prov-1";
       endpoint_id := Some "ep-1"; key_id := Some "key-1";
       attempt_id := Some "att-1"; provider_api_format := Some "OPENAI";
       mapped_model := Some "acme-large";
       input_tokens := 12; output_tokens := 0; cached_tokens := 0;
       cache_creation_tokens := 0;
       collected_text := "partial";
       status_code := 502; error_message := Some "bad gateway";
       has_completion := false;
       response_headers := ∅; provider_request_headers := ∅;
       provider_request_body := None;
       data_count := 1; chunk_count := 1; parsed_chunks := [] |} in
  provider_name (reset_for_retry ctx) = Some "acme"
  /\ provider_id (reset_for_retry ctx) = Some "prov-1"
  /\ endpoint_id (reset_for_retry ctx) = Some "ep-1"
  /\ key_id (reset_for_retry ctx) = Some "key-1"
  /\ attempt_id (reset_for_retry ctx) = Some "att-1"
  /\ provider_api_format (reset_for_retry ctx) = Some "OPENAI"
  /\ mapped_model (reset_for_retry ctx) = Some "acme-large"
  /\ provider_name (fresh (model ctx) (api_format ctx)) = None
  /\ reset_for_retry ctx <> fresh (model ctx) (api_format ctx).
Proof.
  cbn. repeat split. intros E. discriminate E.
Qed.

(** C4. Starting from counters at zero: (input=100, output=0) then
    (input=0, output=50) ends with input 100 and output 50; (input=0) on
    a zero counter leaves it zero; (input=5) then (input=0) leaves 5; and
    for each counter, an update passing zero never changes a non-zero
    stored value. *)
Theorem update_usage_zero_never_clobbers self :
  input_tokens self = 0 ->
  output_tokens self = 0 ->
  cached_tokens self = 0 ->
  cache_creation_tokens self = 0 ->
  (let s2 :=
     update_usage (update_usage self (Some 100) (Some 0) None None)
       (Some 0) (Some 50) None None in
   input_tokens s2 = 100 /\ output_tokens s2 = 50)
  /\ input_tokens (update_usage self (Some 0) None None None) = 0
  /\ input_tokens
       (update_usage (update_usage self (Some 5) None None None)
          (Some 0) None None None) = 5
  /\ (forall ctx a b c,
        input_tokens ctx <> 0 ->
        input_tokens (update_usage ctx (Some 0) a b c) = input_tokens ctx)
  /\ (forall ctx a b c,
        output_tokens ctx <> 0 ->
        output_tokens (update_usage ctx a (Some 0) b c) = output_tokens ctx)
  /\ (forall ctx a b c,
        cached_tokens ctx <> 0 ->
        cached_tokens (update_usage ctx a b (Some 0) c) = cached_tokens ctx)
  /\ (forall ctx a b c,
        cache_creation_tokens ctx <> 0 ->
        cache_creation_tokens (update_usage ctx a b c (Some 0))
        = cache_creation_tokens ctx).
Proof.
  intros Hi Ho _ _. cbv zeta.
  assert (Hzero : forall stored, stored <> 0 -> merged (Some 0) stored = stored).
  { intros stored Hs. cbn. destruct (Z.eqb_spec stored 0); [lia | reflexivity]. }
  repeat split; intros;
    rewrite ?update_usage_input_tokens, ?update_usage_output_tokens,
      ?update_usage_cached_tokens, ?update_usage_cache_creation_tokens;
    rewrite ?Hi, ?Ho; auto.
Qed.

Lemma update_usage_zero_never_clobbers_witness :
  (let s2 :=
     update_usage
       (update_usage (fresh "m" "CLAUDE") (Some 100) (Some 0) None None)
       (Some 0) (Some 50) None None in
   input_tokens s2 = 100 /\ output_tokens s2 = 50)
  /\ input_tokens (update_usage (fresh "m" "CLAUDE") (Some 0) None None None)
     = 0.
Proof.
  destruct (update_usage_zero_never_clobbers (fresh "m" "CLAUDE")
              eq_refl eq_refl eq_refl eq_refl) as (H1 & H2 & _).
  exact (conj H1 H2).
Defined.

(** C6. [is_success] holds exactly when [status_code < 400]; after
    [mark_failed c m] the context has [status_code = c] and
    [error_message = m], and [is_success] is false whenever [c >= 400]. *)
Theorem is_success_iff_below_400 self c m :
  (is_success self = true <-> status_code self < 400)
  /\ status_code (mark_failed self c m) = c
  /\ error_message (mark_failed self c m) = Some m
  /\ (400 <= c -> is_success (mark_failed self c m) = false).
Proof.
  unfold is_success. cbn.
  split; [apply Z.ltb_lt |].
  repeat split. intros Hc. apply Z.ltb_ge. exact Hc.
Qed.

(** C8, as stated, fails: for a context that collected the text
    ["Hello, world"], the returned payload is the chunk list and a
    metadata dictionary of exactly five entries (stream flag, event
    count, data count, completion flag, latency), none of them taken from
    the collected text; the same context with another collected text
    gives the same payload. *)
Lemma build_response_body_without_collected_text :
  let ctx := fun text : string =>
    {| model := "claude-sonnet"; api_format := "CLAUDE";
       provider_name := Some "acme"; provider_id := None;
       endpoint_id := None; key_id := None; attempt_id := None;
       provider_api_format := None; mapped_model := None;
       input_tokens := 3; output_tokens := 4; cached_tokens := 0;
       cache_creation_tokens := 0;
       collected_text := text;
       status_code := 200; error_message := None; has_completion := true;
       response_headers := ∅; provider_request_headers := ∅;
       provider_request_body := None;
       data_count := 2; chunk_count := 1;
       parsed_chunks := [JDict [("type", JStr "message_stop")]] |} in
  build_response_body (ctx "Hello, world") 1200
  = JDict
      [ ("chunks", JList [JDict [("type", JStr "message_stop")]]);
        ("metadata",
          JDict
            [ ("stream", JBool true);
              ("total_chunks", JInt 1);
              ("data_count", JInt 2);
              ("has_completion", JBool true);
              ("response_time_ms", JInt 1200) ]) ]
  /\ build_response_body (ctx "") 1200
     = build_response_body (ctx "Hello, world") 1200.
Proof. cbn. split; reflexivity. Qed.

(** C8, amended. [build_response_body] returns a dictionary with the
    two keys [chunks] (the parsed event list) and [metadata], where
    [metadata] holds exactly [stream = True], [total_chunks] (the length
    of [parsed_chunks]), [data_count], [has_completion] and
    [response_time_ms] as passed; the payload carries nothing of the
    collected text: contexts that agree on [parsed_chunks], [data_count]
    and [has_completion] give the same payload. *)
Theorem build_response_body_payload self response_time_ms :
  let body := build_response_body self response_time_ms in
  jkeys body = ["chunks"; "metadata"]
  /\ jget "chunks" body = Some (JList (parsed_chunks self))
  /\ (exists metadata,
        jget "metadata" body = Some metadata
        /\ jkeys metadata
           = ["stream"; "total_chunks"; "data_count"; "has_completion";
              "response_time_ms"]
        /\ jget "stream" metadata = Some (JBool true)
        /\ jget "total_chunks" metadata
           = Some (JInt (Z.of_nat (length (parsed_chunks self))))
        /\ jget "data_count" metadata = Some (JInt (data_count self))
        /\ jget "has_completion" metadata
           = Some (JBool (has_completion self))
        /\ jget "response_time_ms" metadata = Some (JInt response_time_ms))
  /\ (forall other,
        parsed_chunks other = parsed_chunks self ->
        data_count other = data_count self ->
        has_completion other = has_completion self ->
        build_response_body other response_time_ms = body).
Proof.
  cbv zeta. split; [reflexivity |]. split; [reflexivity |]. split.
  - eexists. split; [reflexivity |]. repeat split.
  - intros other Hp Hd Hc. unfold build_response_body.
    rewrite Hp, Hd, Hc. reflexivity.
Qed.

End StreamContextFacts.

(** ** Cache-creation tokens of a usage dictionary *)

Section HandlerUtilsFacts.

Import HandlerUtils.

Variable int_of_str : string -> option Z.




(** A field bound to [None] is not absent: converting it raises, so the
    call returns nothing. *)
Lemma extract_cache_creation_tokens_null_raises :
  extract_cache_creation_tokens int_of_str
    {[ "cache_creation_input_tokens" := JNull ]} = None.
Proof. vm_compute. reflexivity. Qed.

End HandlerUtilsFacts.



(** ** Email verification codes *)

Section EmailVerificationFacts.

Import EmailVerification.

Implicit Types (r : gmap string RedisEntry) (d : VerificationData).

Lemma keys_distinct email email' :
  VERIFICATION_PREFIX +:+ email <> VERIFIED_PREFIX +:+ email'.
Proof.
  unfold VERIFICATION_PREFIX, VERIFIED_PREFIX. cbn [String.append].
  intros H. repeat (injection H as _ H). discriminate H.
Qed.

Lemma compare_digest_ascii a b :
  is_ascii a = true -> is_ascii b = true ->
  compare_digest a b = Some (String.eqb a b).
Proof. unfold compare_digest. intros -> ->. reflexivity. Qed.

Lemma compare_digest_true a b : compare_digest a b = Some true -> a = b.
Proof.
  unfold compare_digest. destruct (is_ascii a && is_ascii b); [|discriminate].
  intros [= H]. apply String.eqb_eq, H.
Qed.

Lemma verify_code_absent r email c :
  r !! (VERIFICATION_PREFIX +:+ email) = None ->
  verify_code (Some r) email c = ((false, "验证码不存在或已过期"), Some r).
Proof.
  intros H. unfold verify_code, redis_get. rewrite H. reflexivity.
Qed.


Lemma verify_code_wrong r email d ttl c :
  r !! (VERIFICATION_PREFIX +:+ email)
    = Some {| value := RData d; ttl_seconds := ttl |} ->
  attempts d < 5 ->
  0 < ttl ->
  compare_digest c (code d) = Some false ->
  verify_code (Some r) email c
  = ((false,
      "验证码错误，剩余尝试次数: " +:+ str_of_int (5 - (attempts d + 1))),
     Some (<[VERIFICATION_PREFIX +:+ email :=
               {| value := RData (bump_attempts d); ttl_seconds := ttl |}]> r)).
Proof.
  intros H Hlt Httl Hcmp. unfold verify_code, redis_get, redis_ttl.
  rewrite H. cbn [fmap option_fmap option_map value ttl_seconds].
  unfold DEFAULT_MAX_ATTEMPTS.
  destruct (Z.leb_spec 5 (attempts d)); [lia |].
  cbn [bump_attempts code attempts]. rewrite Hcmp.
  destruct (Z.ltb_spec 0 ttl); [reflexivity | lia].
Qed.

Lemma verify_code_match r email d ttl c :
  r !! (VERIFICATION_PREFIX +:+ email)
    = Some {| value := RData d; ttl_seconds := ttl |} ->
  attempts d < 5 ->
  compare_digest c (code d) = Some true ->
  verify_code (Some r) email c
  = ((true, "验证成功"),
     Some (<[VERIFIED_PREFIX +:+ email :=
               {| value := RText "verified"; ttl_seconds := 3600 |}]>
             (delete (VERIFICATION_PREFIX +:+ email) r))).
Proof.
  intros H Hlt Hcmp. unfold verify_code, redis_get.
  rewrite H. cbn [fmap option_fmap option_map value].
  unfold DEFAULT_MAX_ATTEMPTS.
  destruct (Z.leb_spec 5 (attempts d)); [lia |].
  cbn [bump_attempts code attempts]. rewrite Hcmp. reflexivity.
Qed.

Lemma verify_code_raises r email d ttl c :
  r !! (VERIFICATION_PREFIX +:+ email)
    = Some {| value := RData d; ttl_seconds := ttl |} ->
  attempts d < 5 ->
  compare_digest c (code d) = None ->
  verify_code (Some r) email c = ((false, "系统错误"), Some r).
Proof.
  intros H Hlt Hcmp. unfold verify_code, redis_get.
  rewrite H. cbn [fmap option_fmap option_map value].
  unfold DEFAULT_MAX_ATTEMPTS.
  destruct (Z.leb_spec 5 (attempts d)); [lia |].
  cbn [bump_attempts code attempts]. rewrite Hcmp. reflexivity.
Qed.


(** The guard [if ttl > 0]: when [TTL] reports no positive lifetime the
    incremented count is not written back. *)
Lemma verify_code_wrong_unpersisted r email d ttl c :
  r !! (VERIFICATION_PREFIX +:+ email)
    = Some {| value := RData d; ttl_seconds := ttl |} ->
  attempts d < 5 ->
  ttl <= 0 ->
  compare_digest c (code d) = Some false ->
  snd (verify_code (Some r) email c) = Some r.
Proof.
  intros H Hlt Httl Hcmp. unfold verify_code, redis_get, redis_ttl.
  rewrite H. cbn [fmap option_fmap option_map value ttl_seconds].
  unfold DEFAULT_MAX_ATTEMPTS.
  destruct (Z.leb_spec 5 (attempts d)); [lia |].
  cbn [bump_attempts code attempts]. rewrite Hcmp.
  destruct (Z.ltb_spec 0 ttl); [lia | reflexivity].
Qed.





(** Four wrong codes, then the right one as the fifth attempt: accepted. *)
Example fifth_attempt_accepted :
  let r : gmap string RedisEntry :=
    {[ "email:verification:user@example.com" :=
         {| value := RData {| code := "123456"; attempts := 0;
                              created_at := "2026-01-06T08:00:00+00:00" |};
            ttl_seconds := 1800 |} ]} in
  verify_all (Some r) "user@example.com"
    ["000000"; "000001"; "000002"; "000003"; "123456"; "123456"]
  = [ (false, "验证码错误，剩余尝试次数: 4");
      (false, "验证码错误，剩余尝试次数: 3");
      (false, "验证码错误，剩余尝试次数: 2");
      (false, "验证码错误，剩余尝试次数: 1");
      (true, "验证成功");
      (false, "验证码不存在或已过期") ].
Proof. vm_compute. reflexivity. Qed.

(** Five wrong codes use the code up: the right one is refused after. *)
Example sixth_attempt_refused :
  let r : gmap string RedisEntry :=
    {[ "email:verification:user@example.com" :=
         {| value := RData {| code := "123456"; attempts := 0;
                              created_at := "2026-01-06T08:00:00+00:00" |};
            ttl_seconds := 1800 |} ]} in
  verify_all (Some r) "user@example.com"
    ["000000"; "000001"; "000002"; "000003"; "000004"; "123456"; "123456"]
  = [ (false, "验证码错误，剩余尝试次数: 4");
      (false, "验证码错误，剩余尝试次数: 3");
      (false, "验证码错误，剩余尝试次数: 2");
      (false, "验证码错误，剩余尝试次数: 1");
      (false, "验证码错误，剩余尝试次数: 0");
      (false, "验证码尝试次数过多，请重新发送");
      (false, "验证码不存在或已过期") ].
Proof. vm_compute. reflexivity. Qed.

End EmailVerificationFacts.



(** ** Rate-limited auth requests *)

Section AuthRoutesFacts.

Import AuthRoutes.

(* Runs a handler up to the limiter's answer [Hlimit]. *)
Ltac run_to_limiter Hlimit :=
  cbv [run handle login_handle register_handle
         send_verification_code_handle verify_email_handle
         validate_or_invalid call call_exn bind emit ret raise try_except];
  cbn [app limit_action] in *;
  try rewrite Hlimit;
  cbn [negb app].

(** C7. Take any of the four rate-limited routes (login, register,
    verification-send, verification-verify) and a request for which
    [IPRateLimiter.check_limit] answers "not allowed". If the request
    body was accepted, the handler raises an HTTP 429 whose detail
    contains the limiter's [reset_after] seconds, and its calls stop at
    the limiter check and the warning log; in every case the request
    ends in an exception and no authentication, user creation, code
    sending or code verification call is made. *)
Theorem rate_limited_request_rejected route w remaining reset_after :
  w_check_limit w (w_client_ip w) (limit_action route)
    = (false, remaining, reset_after) ->
  (body_accepted route w = true ->
   exists trace log_line detail,
     run (handle route w)
     = (trace ++ [ECheckLimit (w_client_ip w) (limit_action route);
                  ELogWarning log_line],
        inl (HTTPException 429 detail))
     /\ (exists before after,
           detail = before +:+ str_of_int reset_after +:+ after)
     /\ Forall (fun ev => guarded ev = false) trace)
  /\ Forall (fun ev => guarded ev = false) (fst (run (handle route w)))
  /\ is_inr (snd (run (handle route w))) = false.
Proof.
  intros Hlimit. split.
  - intros Hbody. unfold body_accepted in Hbody.
    destruct route, (w_json_body w) as [e | payload] eqn:Hjson;
      try discriminate Hbody.
    + destruct (w_validate_login w payload) eqn:Hv; [discriminate Hbody |].
      run_to_limiter Hlimit. rewrite Hjson, Hv. run_to_limiter Hlimit.
      eexists [_; _; _; _], _, _. split; [reflexivity |].
      split; [eexists _, _; reflexivity | repeat constructor].
    + destruct (w_validate_register w payload) eqn:Hv; [discriminate Hbody |].
      run_to_limiter Hlimit. rewrite Hjson, Hv. run_to_limiter Hlimit.
      eexists [_; _; _; _], _, _. split; [reflexivity |].
      split; [eexists _, _; reflexivity | repeat constructor].
    + destruct (w_validate_send w payload) eqn:Hv; [discriminate Hbody |].
      run_to_limiter Hlimit. rewrite Hjson, Hv. run_to_limiter Hlimit.
      eexists [_; _; _], _, _. split; [reflexivity |].
      split; [eexists _, _; reflexivity | repeat constructor].
    + destruct (w_validate_verify w payload) eqn:Hv; [discriminate Hbody |].
      run_to_limiter Hlimit. rewrite Hjson, Hv. run_to_limiter Hlimit.
      eexists [_; _; _], _, _. split; [reflexivity |].
      split; [eexists _, _; reflexivity | repeat constructor].
  - destruct route, (w_json_body w) as [e | payload] eqn:Hjson.
    all: run_to_limiter Hlimit; rewrite Hjson; run_to_limiter Hlimit.
    all: try (split; [repeat constructor | reflexivity]).
    + destruct (w_validate_login w payload); run_to_limiter Hlimit;
        (split; [repeat constructor | reflexivity]).
    + destruct (w_validate_register w payload); run_to_limiter Hlimit;
        (split; [repeat constructor | reflexivity]).
    + destruct (w_validate_send w payload); run_to_limiter Hlimit;
        (split; [repeat constructor | reflexivity]).
    + destruct (w_validate_verify w payload); run_to_limiter Hlimit;
        (split; [repeat constructor | reflexivity]).
Qed.

(** The login handler on the sample request when the limiter denies. *)
Example login_rate_limited_run :
  run (login_handle (sample_world false))
  = ([ EEnsureJsonBody; EModelValidate "LoginRequest"; EGetClientIp;
       EGetUserAgent; ECheckLimit "203.0.113.7" "login";
       ELogWarning "登录请求超过速率限制: IP=203.0.113.7, 剩余=0" ],
     inl (HTTPException 429 "登录请求过于频繁，请在 42 秒后重试")).
Proof. reflexivity. Qed.

(** The same request when the limiter allows it goes on to
    authentication. *)
Example login_allowed_run :
  run (login_handle (sample_world true))
  = ([ EEnsureJsonBody; EModelValidate "LoginRequest"; EGetClientIp;
       EGetUserAgent; ECheckLimit "203.0.113.7" "login";
       EAuthenticateUser "user@example.com" "secret";
       EAuditLoginAttempt "user@example.com" false; EDbCommit ],
     inl (HTTPException 401 "邮箱或密码错误")).
Proof. reflexivity. Qed.

(** An allowed registration creates the user. *)
Example register_allowed_run :
  In (ECreateUser "user@example.com" "user")
     (fst (run (register_handle (sample_world true)))).
Proof. vm_compute. tauto. Qed.

End AuthRoutesFacts.

Lemma rate_limited_request_rejected_witness :
  exists trace log_line detail,
    AuthRoutes.run (AuthRoutes.handle AuthRoutes.RouteLogin
                      (AuthRoutes.sample_world false))
    = (trace ++ [AuthRoutes.ECheckLimit "203.0.113.7" "login";
                 AuthRoutes.ELogWarning log_line],
       inl (AuthRoutes.HTTPException 429 detail))
    /\ (exists before after, detail = before +:+ str_of_int 42 +:+ after)
    /\ Forall (fun ev => AuthRoutes.guarded ev = false) trace.
Proof.
  exact (proj1 (rate_limited_request_rejected AuthRoutes.RouteLogin
                  (AuthRoutes.sample_world false) 0 42 eq_refl) eq_refl).
Defined.

(** ** Concurrency counters never go negative *)

Section ConcurrencyFacts.

Import Concurrency.

Implicit Types (m : gmap string Z) (st : Counters).

Lemma count_insert m i v id :
  count (<[i := v]> m) id = if decide (i = id) then v else count m id.
Proof.
  unfold count. rewrite lookup_insert. destruct (decide (i = id)); reflexivity.
Qed.

Lemma count_empty id : count ∅ id = 0.
Proof. unfold count. rewrite lookup_empty. reflexivity. Qed.

Lemma increment_nonneg m id : map_nonneg m -> map_nonneg (increment m id).
Proof.
  intros H j. destruct id as [i|]; cbn; [| apply H].
  rewrite count_insert. destruct (decide (i = j)); [| apply H].
  specialize (H i). lia.
Qed.

Lemma decrement_nonneg m id : map_nonneg m -> map_nonneg (decrement m id).
Proof.
  intros H j. destruct id as [i|]; cbn; [| apply H].
  rewrite count_insert. destruct (decide (i = j)); [lia | apply H].
Qed.

Lemma zero_nonneg m id : map_nonneg m -> map_nonneg (zero m id).
Proof.
  intros H j. destruct id as [i|]; cbn; [| apply H].
  rewrite count_insert. destruct (decide (i = j)); [lia | apply H].
Qed.

Lemma nonneg_maps st :
  nonneg st <-> map_nonneg (endpoint_counts st) /\ map_nonneg (key_counts st).
Proof.
  unfold nonneg, map_nonneg. split.
  - intros H. split; intros id; apply H.
  - intros [He Hk] id. split; [apply He | apply Hk].
Qed.

Lemma step_nonneg cfg st op : nonneg st -> nonneg (step cfg st op).
Proof.
  rewrite !nonneg_maps. intros [He Hk].
  destruct op as [e k | e k | e k]; cbn.
  - unfold acquire.
    repeat match goal with
           | |- context [if ?b then _ else _] => destruct b
           end; cbn; auto using increment_nonneg.
  - auto using decrement_nonneg.
  - auto using zero_nonneg.
Qed.

Lemma run_nonneg cfg ops : forall st, nonneg st -> nonneg (run cfg st ops).
Proof.
  unfold run. induction ops as [|op ops IH]; intros st H; cbn.
  - exact H.
  - apply IH, step_nonneg, H.
Qed.

Lemma no_traffic_nonneg : nonneg no_traffic.
Proof. intros id. cbn. rewrite count_empty. lia. Qed.

(** C5. Whatever acquire, release and reset calls are made, in whatever
    order and number, every endpoint counter and every key counter read
    afterwards is at least zero; and a release on a counter that is at
    zero leaves it at zero. *)
Theorem counters_never_negative cfg ops endpoint_id key_id :
  let st := run cfg no_traffic ops in
  0 <= fst (current st endpoint_id key_id)
  /\ 0 <= snd (current st endpoint_id key_id)
  /\ nonneg st
  /\ (forall st' e k,
        count (endpoint_counts st') e = 0 ->
        count (endpoint_counts (release st' (Some e) k)) e = 0)
  /\ (forall st' e k,
        count (key_counts st') k = 0 ->
        count (key_counts (release st' e (Some k))) k = 0)
  /\ (forall st', nonneg st' -> nonneg (run cfg st' ops)).
Proof.
  cbv zeta.
  pose proof (run_nonneg cfg ops _ no_traffic_nonneg) as Hst.
  split; [| split; [| split; [exact Hst | split; [| split]]]].
  - destruct endpoint_id as [e|]; cbn; [apply Hst | lia].
  - destruct key_id as [k|]; cbn; [apply Hst | lia].
  - intros st' e k H. cbn. rewrite count_insert, decide_True by reflexivity.
    rewrite H. reflexivity.
  - intros st' e k H. cbn. rewrite count_insert, decide_True by reflexivity.
    rewrite H. reflexivity.
  - apply run_nonneg.
Qed.

(** Three releases after one acquire: the counter stops at zero. *)
Example release_clamped :
  let cfg := {| endpoint_max := fun _ => Some 2; key_max := fun _ => None |} in
  let st :=
    run cfg no_traffic
      [OpAcquire (Some "ep-1") (Some "key-1");
       OpRelease (Some "ep-1") (Some "key-1");
       OpRelease (Some "ep-1") (Some "key-1");
       OpRelease (Some "ep-1") (Some "key-1")] in
  current st (Some "ep-1") (Some "key-1") = (0, 0).
Proof. vm_compute. reflexivity. Qed.

End ConcurrencyFacts.

(** * Further properties of the modelled code *)

(** ** Laws of the attempt context *)

Section StreamContextLaws.

Import StreamCtx.

Ltac guards_inside_out :=
  repeat match goal with
         | |- context [if ?b then _ else _] =>
             lazymatch b with
             | context [if _ then _ else _] => fail
             | _ => destruct b; cbn
             end
         end.

(** Two contexts with the same fields are the same context. *)
Lemma StreamContext_ext (a b : StreamContext) :
  model a = model b -> api_format a = api_format b ->
  provider_name a = provider_name b -> provider_id a = provider_id b ->
  endpoint_id a = endpoint_id b -> key_id a = key_id b ->
  attempt_id a = attempt_id b ->
  provider_api_format a = provider_api_format b ->
  mapped_model a = mapped_model b ->
  input_tokens a = input_tokens b -> output_tokens a = output_tokens b ->
  cached_tokens a = cached_tokens b ->
  cache_creation_tokens a = cache_creation_tokens b ->
  collected_text a = collected_text b ->
  status_code a = status_code b -> error_message a = error_message b ->
  has_completion a = has_completion b ->
  response_headers a = response_headers b ->
  provider_request_headers a = provider_request_headers b ->
  provider_request_body a = provider_request_body b ->
  data_count a = data_count b -> chunk_count a = chunk_count b ->
  parsed_chunks a = parsed_chunks b ->
  a = b.
Proof. destruct a, b; cbn; intros; subst; reflexivity. Qed.

Lemma update_usage_other_fields self i o c cc :
  let self' := update_usage self i o c cc in
  model self' = model self
  /\ api_format self' = api_format self
  /\ provider_name self' = provider_name self
  /\ provider_id self' = provider_id self
  /\ endpoint_id self' = endpoint_id self
  /\ key_id self' = key_id self
  /\ attempt_id self' = attempt_id self
  /\ provider_api_format self' = provider_api_format self
  /\ mapped_model self' = mapped_model self
  /\ collected_text self' = collected_text self
  /\ status_code self' = status_code self
  /\ error_message self' = error_message self
  /\ has_completion self' = has_completion self
  /\ response_headers self' = response_headers self
  /\ provider_request_headers self' = provider_request_headers self
  /\ provider_request_body self' = provider_request_body self
  /\ data_count self' = data_count self
  /\ chunk_count self' = chunk_count self
  /\ parsed_chunks self' = parsed_chunks self.
Proof.
  cbv zeta. unfold update_usage.
  destruct i, o, c, cc; cbn; guards_inside_out; repeat split.
Qed.

(** X1. [update_usage] writes the four token counters and nothing else:
    identity, provider binding, collected text, status, error message,
    completion flag, headers, request body and the streaming statistics
    are what they were, whatever arguments are passed. *)
Theorem update_usage_frame self i o c cc :
  let self' := update_usage self i o c cc in
  model self' = model self
  /\ api_format self' = api_format self
  /\ provider_name self' = provider_name self
  /\ provider_id self' = provider_id self
  /\ endpoint_id self' = endpoint_id self
  /\ key_id self' = key_id self
  /\ attempt_id self' = attempt_id self
  /\ provider_api_format self' = provider_api_format self
  /\ mapped_model self' = mapped_model self
  /\ collected_text self' = collected_text self
  /\ status_code self' = status_code self
  /\ error_message self' = error_message self
  /\ has_completion self' = has_completion self
  /\ response_headers self' = response_headers self
  /\ provider_request_headers self' = provider_request_headers self
  /\ provider_request_body self' = provider_request_body self
  /\ data_count self' = data_count self
  /\ chunk_count self' = chunk_count self
  /\ parsed_chunks self' = parsed_chunks self.
Proof. apply update_usage_other_fields. Qed.

Lemma merged_idempotent arg stored :
  merged arg (merged arg stored) = merged arg stored.
Proof.
  destruct arg as [v|]; cbn; [| reflexivity].
  destruct (Z.ltb_spec 0 v); cbn.
  - destruct (Z.ltb_spec 0 v); [reflexivity | lia].
  - destruct (Z.eqb_spec stored 0); cbn.
    + destruct (Z.ltb_spec 0 v); [lia |]. cbn.
      destruct (Z.eqb_spec v 0); reflexivity.
    + destruct (Z.ltb_spec 0 v); [lia |]. cbn.
      destruct (Z.eqb_spec stored 0); [contradiction | reflexivity].
Qed.

(** X2. Reporting the same usage twice changes nothing more than
    reporting it once. *)
Theorem update_usage_idempotent self i o c cc :
  update_usage (update_usage self i o c cc) i o c cc
  = update_usage self i o c cc.
Proof.
  pose proof (update_usage_other_fields (update_usage self i o c cc) i o c cc)
    as F.
  cbv zeta in F. destruct_and!.
  apply StreamContext_ext; try assumption;
    rewrite ?update_usage_input_tokens, ?update_usage_output_tokens,
      ?update_usage_cached_tokens, ?update_usage_cache_creation_tokens;
    apply merged_idempotent.
Qed.

(** X3. [reset_for_retry] forgets every usage report and failure mark:
    taken after [update_usage], after [mark_failed] or after another
    [reset_for_retry] it gives the context it gives without them, and
    that context counts as a success. *)
Theorem reset_for_retry_absorbs self i o c cc code msg :
  reset_for_retry (update_usage self i o c cc) = reset_for_retry self
  /\ reset_for_retry (mark_failed self code msg) = reset_for_retry self
  /\ reset_for_retry (reset_for_retry self) = reset_for_retry self
  /\ is_success (reset_for_retry self) = true.
Proof.
  split; [| split; [reflexivity | split; reflexivity]].
  pose proof (update_usage_other_fields self i o c cc) as F.
  cbv zeta in F. destruct_and!.
  unfold reset_for_retry.
  repeat match goal with
         | H : _ (update_usage _ _ _ _ _) = _ |- _ => rewrite H; clear H
         end.
  reflexivity.
Qed.

(** X4. The first usage report after a reset is stored as it is given,
    zero and negative values included; a counter that is not reported
    stays at zero. *)
Theorem update_usage_after_reset self i o c cc :
  let self' := update_usage (reset_for_retry self) i o c cc in
  input_tokens self' = default 0 i
  /\ output_tokens self' = default 0 o
  /\ cached_tokens self' = default 0 c
  /\ cache_creation_tokens self' = default 0 cc.
Proof.
  cbv zeta.
  rewrite update_usage_input_tokens, update_usage_output_tokens,
    update_usage_cached_tokens, update_usage_cache_creation_tokens.
  cbn. unfold merged.
  destruct i, o, c, cc; cbn; rewrite ?orb_true_r; repeat split.
Qed.

Lemma merged_nonneg arg stored :
  0 <= stored -> 0 <= default 0 arg -> 0 <= merged arg stored.
Proof.
  destruct arg as [v|]; cbn; [| auto].
  destruct ((0 <? v) || (stored =? 0)); auto.
Qed.

Lemma merged_nonzero arg stored : stored <> 0 -> merged arg stored <> 0.
Proof.
  destruct arg as [v|]; cbn; [| auto].
  destruct (Z.ltb_spec 0 v); cbn; [lia |].
  destruct (Z.eqb_spec stored 0); [contradiction | auto].
Qed.

(** X5. Counters that are non-negative stay non-negative when the
    reported values are non-negative, and a counter that is not zero is
    never brought back to zero by [update_usage], whatever is reported. *)
Theorem update_usage_keeps_counters_sound self i o c cc :
  let self' := update_usage self i o c cc in
  (0 <= input_tokens self -> 0 <= default 0 i -> 0 <= input_tokens self')
  /\ (0 <= output_tokens self -> 0 <= default 0 o -> 0 <= output_tokens self')
  /\ (0 <= cached_tokens self -> 0 <= default 0 c -> 0 <= cached_tokens self')
  /\ (0 <= cache_creation_tokens self -> 0 <= default 0 cc ->
      0 <= cache_creation_tokens self')
  /\ (input_tokens self <> 0 -> input_tokens self' <> 0)
  /\ (output_tokens self <> 0 -> output_tokens self' <> 0)
  /\ (cached_tokens self <> 0 -> cached_tokens self' <> 0)
  /\ (cache_creation_tokens self <> 0 -> cache_creation_tokens self' <> 0).
Proof.
  cbv zeta.
  rewrite update_usage_input_tokens, update_usage_output_tokens,
    update_usage_cached_tokens, update_usage_cache_creation_tokens.
  repeat split; auto using merged_nonneg, merged_nonzero.
Qed.

End StreamContextLaws.

(** ** Verification codes: generation, marker and clearing *)

Section EmailVerificationOpsFacts.

Import EmailVerification EmailVerificationOps.

Implicit Types (r : gmap string RedisEntry) (d : VerificationData).

(** *** Decimal digits of a number below a power of ten *)

Lemma of_lu_lower_bound (l : Decimal.uint) :
  DecimalFacts.nztail l = l -> l <> Decimal.Nil ->
  (10 ^ N.of_nat (Decimal.nb_digits l) <= 10 * DecimalPos.Unsigned.of_lu l)%N.
Proof.
  induction l as [| l IH | l IH | l IH | l IH | l IH | l IH | l IH | l IH
                  | l IH | l IH]; intros Hn Hne; [contradiction | ..].
  all: cbn [Decimal.nb_digits DecimalPos.Unsigned.of_lu];
    rewrite Nat2N.inj_succ, N.pow_succ_r'.
  all: cbn [DecimalFacts.nztail] in Hn.
  - assert (Hl : DecimalFacts.nztail l = l /\ l <> Decimal.Nil).
    { destruct (DecimalFacts.nztail l) eqn:E; try discriminate Hn;
        injection Hn as Hn; subst l; (split; [reflexivity | discriminate]). }
    destruct Hl as [Hl1 Hl2]. specialize (IH Hl1 Hl2). lia.
  - injection Hn as Hn. destruct l; [cbn; lia | ..];
      (assert (IH' := IH Hn ltac:(discriminate)); lia).
  - injection Hn as Hn. destruct l; [cbn; lia | ..];
      (assert (IH' := IH Hn ltac:(discriminate)); lia).
  - injection Hn as Hn. destruct l; [cbn; lia | ..];
      (assert (IH' := IH Hn ltac:(discriminate)); lia).
  - injection Hn as Hn. destruct l; [cbn; lia | ..];
      (assert (IH' := IH Hn ltac:(discriminate)); lia).
  - injection Hn as Hn. destruct l; [cbn; lia | ..];
      (assert (IH' := IH Hn ltac:(discriminate)); lia).
  - injection Hn as Hn. destruct l; [cbn; lia | ..];
      (assert (IH' := IH Hn ltac:(discriminate)); lia).
  - injection Hn as Hn. destruct l; [cbn; lia | ..];
      (assert (IH' := IH Hn ltac:(discriminate)); lia).
  - injection Hn as Hn. destruct l; [cbn; lia | ..];
      (assert (IH' := IH Hn ltac:(discriminate)); lia).
  - injection Hn as Hn. destruct l; [cbn; lia | ..];
      (assert (IH' := IH Hn ltac:(discriminate)); lia).
Qed.

Lemma to_little_uint_normal p :
  DecimalFacts.nztail (Pos.to_little_uint p) = Pos.to_little_uint p
  /\ Pos.to_little_uint p <> Decimal.Nil
  /\ DecimalPos.Unsigned.of_lu (Pos.to_little_uint p) = N.pos p.
Proof.
  assert (Hv : DecimalPos.Unsigned.of_lu (Pos.to_little_uint p) = N.pos p).
  { rewrite <- (DecimalPos.Unsigned.of_to p), DecimalPos.Unsigned.of_uint_alt.
    unfold Pos.to_uint. rewrite DecimalFacts.rev_rev. reflexivity. }
  pose proof (DecimalPos.Unsigned.to_of_lu (Pos.to_little_uint p)) as Hn.
  rewrite Hv in Hn. cbn [DecimalPos.Unsigned.to_lu] in Hn.
  unfold DecimalFacts.lnorm in Hn.
  split; [| split; [| exact Hv]].
  - destruct (DecimalFacts.nztail (Pos.to_little_uint p)) eqn:E;
      try (symmetry; exact Hn).
    rewrite Hn in Hv. discriminate Hv.
  - intros E. rewrite E in Hv. discriminate Hv.
Qed.

Lemma nb_digits_to_uint_bound p (k : nat) :
  (N.pos p < 10 ^ N.of_nat k)%N ->
  (Decimal.nb_digits (Pos.to_uint p) <= k)%nat.
Proof.
  intros Hlt. unfold Pos.to_uint. rewrite DecimalFacts.nb_digits_rev.
  destruct (to_little_uint_normal p) as (Hn & Hne & Hv).
  pose proof (of_lu_lower_bound _ Hn Hne) as Hb. rewrite Hv in Hb.
  assert (H : (10 ^ N.of_nat (Decimal.nb_digits (Pos.to_little_uint p))
               < 10 ^ N.of_nat (S k))%N).
  { rewrite (Nat2N.inj_succ k), N.pow_succ_r'. lia. }
  apply N.pow_lt_mono_r_iff in H; lia.
Qed.

Lemma string_of_uint_length u :
  String.length (NilEmpty.string_of_uint u) = Decimal.nb_digits u.
Proof. induction u; cbn; congruence. Qed.

Lemma string_of_uint_digits u :
  all_digits (NilEmpty.string_of_uint u) = true.
Proof. induction u; cbn; auto. Qed.

Lemma str_of_int_nonneg n :
  0 <= n < 1000000 ->
  (String.length (str_of_int n) <= 6)%nat /\ all_digits (str_of_int n) = true.
Proof.
  intros [Hlo Hhi]. unfold str_of_int.
  destruct n as [| p | p]; [cbn; split; [lia | reflexivity] | | lia].
  cbn [Z.to_int NilZero.string_of_int].
  assert (Hnn : NilZero.string_of_uint (Pos.to_uint p)
                = NilEmpty.string_of_uint (Pos.to_uint p)).
  { pose proof (DecimalPos.Unsigned.to_uint_nonnil p).
    destruct (Pos.to_uint p); [contradiction | reflexivity..]. }
  rewrite Hnn, string_of_uint_length. split.
  - apply (nb_digits_to_uint_bound p 6). cbn. lia.
  - apply string_of_uint_digits.
Qed.

Lemma length_append_string (a b : string) :
  String.length (a +:+ b) = (String.length a + String.length b)%nat.
Proof.
  induction a as [| c a IH]; [reflexivity |].
  simpl. rewrite IH. reflexivity.
Qed.

Lemma all_digits_append (a b : string) :
  all_digits (a +:+ b) = all_digits a && all_digits b.
Proof.
  induction a as [| c a IH]; simpl; [reflexivity |].
  rewrite IH, andb_assoc. reflexivity.
Qed.

Lemma zeros_length n : String.length (zeros n) = n.
Proof. induction n as [| n IH]; simpl; [reflexivity | rewrite IH; reflexivity]. Qed.

Lemma zeros_digits n : all_digits (zeros n) = true.
Proof. induction n as [| n IH]; simpl; [reflexivity | exact IH]. Qed.

Lemma all_digits_ascii s : all_digits s = true -> is_ascii s = true.
Proof.
  induction s as [| c s IH]; [reflexivity |].
  cbn [all_digits]. intros H.
  apply andb_true_iff in H as [H Hs]. apply andb_true_iff in H as [_ Hc].
  destruct c as [b0 b1 b2 b3 b4 b5 b6 b7]. cbn [is_ascii].
  rewrite (IH Hs), andb_true_r.
  destruct b7; [| reflexivity].
  destruct b0, b1, b2, b3, b4, b5, b6; vm_compute in Hc; discriminate Hc.
Qed.

Lemma generate_code_shape draw :
  0 <= draw < 1000000 ->
  String.length (_generate_code draw) = 6%nat
  /\ all_digits (_generate_code draw) = true
  /\ is_ascii (_generate_code draw) = true.
Proof.
  intros Hd. destruct (str_of_int_nonneg draw Hd) as [Hlen Hdig].
  unfold _generate_code, format_06d, pad_zeros.
  destruct (Z.ltb_spec draw 0); [lia |].
  assert (Hall : all_digits
                   (zeros (6 - String.length (str_of_int draw))
                      +:+ str_of_int draw) = true).
  { rewrite all_digits_append, zeros_digits, Hdig. reflexivity. }
  split; [| split; [exact Hall | apply all_digits_ascii, Hall]].
  rewrite length_append_string, zeros_length. lia.
Qed.

(** X6. A generated code is six characters long, all of them decimal
    digits (so it is ASCII), whatever number below one million is
    drawn. *)
Theorem generated_code_six_digits draw :
  0 <= draw < 1000000 ->
  String.length (_generate_code draw) = 6%nat
  /\ all_digits (_generate_code draw) = true
  /\ is_ascii (_generate_code draw) = true.
Proof. apply generate_code_shape. Qed.

(** *** Which keys [verify_code] touches *)

Lemma append_inj_r (a x y : string) : a +:+ x = a +:+ y -> x = y.
Proof.
  induction a as [| c a IH]; simpl; [auto |].
  intros H. injection H as H. auto.
Qed.

Lemma send_limit_key_not_verification email email' :
  SEND_LIMIT_PREFIX +:+ email <> VERIFICATION_PREFIX +:+ email'.
Proof.
  unfold SEND_LIMIT_PREFIX, VERIFICATION_PREFIX. cbn [String.append].
  intros H. repeat (injection H as _ H). discriminate H.
Qed.

Lemma send_limit_key_not_verified email email' :
  SEND_LIMIT_PREFIX +:+ email <> VERIFIED_PREFIX +:+ email'.
Proof.
  unfold SEND_LIMIT_PREFIX, VERIFIED_PREFIX. cbn [String.append].
  intros H. repeat (injection H as _ H). discriminate H.
Qed.

(** The store [verify_code] leaves is the store it found with, at most,
    the pending-code key written or deleted and the verified marker
    written; the marker is written exactly on success. *)
Lemma verify_code_store r email c :
  exists res r',
    verify_code (Some r) email c = (res, Some r')
    /\ (forall k,
          k <> VERIFICATION_PREFIX +:+ email ->
          k <> VERIFIED_PREFIX +:+ email ->
          r' !! k = r !! k)
    /\ (fst res = true ->
        r' !! (VERIFIED_PREFIX +:+ email)
        = Some {| value := RText "verified"; ttl_seconds := 3600 |})
    /\ (fst res = false ->
        r' !! (VERIFIED_PREFIX +:+ email) = r !! (VERIFIED_PREFIX +:+ email)).
Proof.
  unfold verify_code, redis_get, redis_ttl, redis_setex, redis_delete.
  destruct (r !! (VERIFICATION_PREFIX +:+ email)) as [[[d | s] ttl] |] eqn:Hr;
    cbn [fmap option_fmap option_map value ttl_seconds].
  - destruct (DEFAULT_MAX_ATTEMPTS <=? attempts d).
    + eexists _, _. split; [reflexivity |]. repeat split; intros.
      * rewrite lookup_delete_ne by auto. reflexivity.
      * discriminate.
      * rewrite lookup_delete_ne by apply keys_distinct. reflexivity.
    + destruct (compare_digest c (code (bump_attempts d))) as [[|]|].
      * eexists _, _. split; [reflexivity |]. repeat split; intros.
        -- rewrite lookup_insert_ne, lookup_delete_ne by auto. reflexivity.
        -- apply lookup_insert_eq.
        -- discriminate.
      * eexists _, _. split; [reflexivity |]. repeat split; intros.
        -- destruct (0 <? ttl); [| reflexivity].
           rewrite lookup_insert_ne by auto. reflexivity.
        -- discriminate.
        -- destruct (0 <? ttl); [| reflexivity].
           rewrite lookup_insert_ne by apply keys_distinct. reflexivity.
      * eexists _, _. split; [reflexivity |]. repeat split; intros;
          try reflexivity; discriminate.
  - destruct s; eexists _, _; (split; [reflexivity |]);
      repeat split; intros; try reflexivity; discriminate.
  - eexists _, _. split; [reflexivity |].
    repeat split; intros; try reflexivity; discriminate.
Qed.

(** X7. A [verify_code] call for one email leaves every other key of the
    store as it was: the pending code and the verified marker of every
    other email, and every send counter. *)
Theorem verify_code_other_keys_untouched r email c :
  exists res r',
    verify_code (Some r) email c = (res, Some r')
    /\ (forall k,
          k <> VERIFICATION_PREFIX +:+ email ->
          k <> VERIFIED_PREFIX +:+ email ->
          r' !! k = r !! k)
    /\ (forall other,
          other <> email ->
          r' !! (VERIFICATION_PREFIX +:+ other)
          = r !! (VERIFICATION_PREFIX +:+ other)
          /\ r' !! (VERIFIED_PREFIX +:+ other)
             = r !! (VERIFIED_PREFIX +:+ other))
    /\ (forall any,
          r' !! (SEND_LIMIT_PREFIX +:+ any) = r !! (SEND_LIMIT_PREFIX +:+ any)).
Proof.
  destruct (verify_code_store r email c) as (res & r' & Hrun & Hframe & _).
  exists res, r'. split; [exact Hrun |]. split; [exact Hframe |]. split.
  - intros other Hne. split; apply Hframe.
    + intros E. apply append_inj_r in E. contradiction.
    + apply keys_distinct.
    + apply not_eq_sym, keys_distinct.
    + intros E. apply append_inj_r in E. contradiction.
  - intros any. apply Hframe.
    + apply send_limit_key_not_verification.
    + apply send_limit_key_not_verified.
Qed.

(** X8. The verified marker follows the outcome of [verify_code]: after
    a call that returns success [is_email_verified] answers true, and a
    call that returns failure leaves the answer of [is_email_verified]
    as it was. *)
Theorem verify_code_sets_verified_marker r email c :
  let out := verify_code (Some r) email c in
  (fst (fst out) = true -> is_email_verified (snd out) email = true)
  /\ (fst (fst out) = false ->
      is_email_verified (snd out) email = is_email_verified (Some r) email).
Proof.
  cbv zeta.
  destruct (verify_code_store r email c) as (res & r' & Hrun & _ & Hok & Hko).
  rewrite Hrun. cbn [fst snd]. unfold is_email_verified, redis_exists.
  split; intros H.
  - rewrite (Hok H). reflexivity.
  - rewrite (Hko H). reflexivity.
Qed.

(** X9. After [clear_verification] the email is neither verified nor
    pending: [is_email_verified] answers false, every [verify_code]
    answers that the code does not exist, and all other keys of the
    store are unchanged. *)
Theorem clear_verification_forgets r email :
  exists r',
    clear_verification (Some r) email = (true, Some r')
    /\ is_email_verified (Some r') email = false
    /\ stored_attempts r' email = None
    /\ (forall c,
          verify_code (Some r') email c
          = ((false, "验证码不存在或已过期"), Some r'))
    /\ (forall k,
          k <> VERIFICATION_PREFIX +:+ email ->
          k <> VERIFIED_PREFIX +:+ email ->
          r' !! k = r !! k).
Proof.
  eexists. split; [reflexivity |].
  assert (Hgone :
    redis_delete (redis_delete r (VERIFIED_PREFIX +:+ email))
      (VERIFICATION_PREFIX +:+ email) !! (VERIFICATION_PREFIX +:+ email)
    = None) by apply lookup_delete_eq.
  split; [| split; [| split]].
  - unfold is_email_verified, redis_exists, redis_delete.
    rewrite lookup_delete_ne by apply keys_distinct.
    rewrite lookup_delete_eq. reflexivity.
  - unfold stored_attempts, redis_get. rewrite Hgone. reflexivity.
  - intros c. apply verify_code_absent, Hgone.
  - intros k Hk1 Hk2. unfold redis_delete.
    rewrite !lookup_delete_ne by auto. reflexivity.
Qed.

End EmailVerificationOpsFacts.

Lemma generated_code_six_digits_witness :
  EmailVerificationOps._generate_code 42 = "000042"
  /\ String.length (EmailVerificationOps._generate_code 42) = 6%nat.
Proof.
  split; [reflexivity |].
  exact (proj1 (generated_code_six_digits 42 ltac:(lia))).
Defined.

(** ** Sending a verification code *)

Section SendVerificationFacts.

Import EmailVerification EmailVerificationOps.

Variable py_int_of_str : string -> option Z.
Variable redis_int_of_str : string -> option Z.
Variable isoformat : Z -> string.
Variable fromisoformat : string -> option Z.
Variable exception_text : SendFailure -> string.
Variable setex_accepts : Z -> bool.
Variable skewed_seconds_left : Z -> Z.

Implicit Types (r : gmap string RedisEntry) (d : VerificationData).

#[local] Abbreviation send :=
  (send_verification_code py_int_of_str redis_int_of_str isoformat
     fromisoformat exception_text setex_accepts skewed_seconds_left).

Lemma redis_incr_frame r key n r' :
  redis_incr redis_int_of_str r key = Some (n, r') ->
  forall k, k <> key -> r' !! k = r !! k.
Proof.
  unfold redis_incr. intros H k Hk.
  repeat case_match; simplify_eq; rewrite lookup_insert_ne by auto; reflexivity.
Qed.

Lemma redis_expire_frame r key seconds k :
  k <> key -> redis_expire r key seconds !! k = r !! k.
Proof.
  unfold redis_expire. intros Hk.
  case_match; [rewrite lookup_insert_ne by auto |]; reflexivity.
Qed.

(** What a successful send has done. *)
Lemma send_success_inv r email expire_minutes now_check now_store draw
    code detail client' :
  send (Some r) email expire_minutes now_check now_store draw
  = ((true, code, detail), client') ->
  code = _generate_code draw
  /\ detail = None
  /\ 0 < expire_time_of expire_minutes * 60
  /\ below_send_limit py_int_of_str r email = true
  /\ exists n r1 r',
       client' = Some r'
       /\ redis_incr redis_int_of_str
            (redis_setex r (VERIFICATION_PREFIX +:+ email)
               (expire_time_of expire_minutes * 60)
               (RData {| code := _generate_code draw; attempts := 0;
                         created_at := isoformat now_store |}))
            (SEND_LIMIT_PREFIX +:+ email) = Some (n, r1)
       /\ r' = (if n =? 1
                then redis_expire r1 (SEND_LIMIT_PREFIX +:+ email) 3600
                else r1).
Proof.
  unfold send_verification_code, below_send_limit, system_error,
    redis_setex_checked, expire_time_of.
  intros H.
  repeat match type of H with
         | context [match ?x with _ => _ end] => destruct x eqn:?
         end; simplify_eq; try discriminate.
  all: repeat match goal with
              | Hx : (if ?b then _ else _) = Some _ |- _ =>
                  destruct b eqn:?; simplify_eq
              end.
  all: repeat match goal with
              | Hx : _ && _ = true |- _ => apply andb_true_iff in Hx as [? _]
              end.
  all: repeat split; try (apply Z.ltb_lt; assumption);
    try (eexists _, _, _; split; [reflexivity |]; split;
         [eassumption |]);
    try match goal with
        | Hn : (?n =? 1) = _ |- _ => rewrite Hn; reflexivity
        end;
    try (rewrite ?Z.ltb_lt; assumption).
  all: apply Z.ltb_lt; apply Z.leb_gt; assumption.
Qed.

Lemma send_limit_not_verification_key email :
  VERIFICATION_PREFIX +:+ email <> SEND_LIMIT_PREFIX +:+ email.
Proof. apply not_eq_sym, send_limit_key_not_verification. Qed.

(** After a successful send the pending-code key holds the new code with
    no attempt counted and the requested lifetime. *)
Lemma send_success_pending r email expire_minutes now_check now_store draw
    code detail client' :
  send (Some r) email expire_minutes now_check now_store draw
  = ((true, code, detail), client') ->
  exists r',
    client' = Some r'
    /\ r' !! (VERIFICATION_PREFIX +:+ email)
       = Some {| value := RData {| code := code; attempts := 0;
                                   created_at := isoformat now_store |};
                 ttl_seconds := expire_time_of expire_minutes * 60 |}.
Proof.
  intros H. apply send_success_inv in H
    as (-> & _ & _ & _ & n & r1 & r' & -> & Hincr & ->).
  eexists. split; [reflexivity |].
  assert (Hr1 : r1 !! (VERIFICATION_PREFIX +:+ email)
                = Some {| value := RData {| code := _generate_code draw;
                                            attempts := 0;
                                            created_at := isoformat now_store |};
                          ttl_seconds := expire_time_of expire_minutes * 60 |}).
  { rewrite (redis_incr_frame _ _ _ _ Hincr)
      by apply send_limit_not_verification_key.
    apply lookup_insert_eq. }
  destruct (n =? 1); [| exact Hr1].
  rewrite redis_expire_frame by apply send_limit_not_verification_key.
  exact Hr1.
Qed.

(** X10. A code handed out by a successful [send_verification_code] is
    accepted by [verify_code]: the store then holds that six-digit code
    with zero attempts and a lifetime of sixty seconds per minute asked
    for, [verify_code] with the returned code answers success, and with
    any other code it answers failure. *)
Theorem send_then_verify_succeeds r email expire_minutes now_check now_store
    draw code detail client' :
  0 <= draw < 1000000 ->
  send (Some r) email expire_minutes now_check now_store draw
  = ((true, code, detail), client') ->
  exists r',
    client' = Some r'
    /\ code = _generate_code draw
    /\ String.length code = 6%nat
    /\ stored_attempts r' email = Some 0
    /\ redis_ttl r' (VERIFICATION_PREFIX +:+ email)
       = expire_time_of expire_minutes * 60
    /\ fst (verify_code (Some r') email code) = (true, "验证成功")
    /\ (forall c, c <> code -> fst (fst (verify_code (Some r') email c)) = false).
Proof.
  intros Hdraw H.
  pose proof (send_success_inv _ _ _ _ _ _ _ _ _ H) as (Hcode & _ & Httl & _).
  destruct (send_success_pending _ _ _ _ _ _ _ _ _ H) as (r' & -> & Hr').
  destruct (generate_code_shape draw Hdraw) as (Hlen & _ & Hascii).
  rewrite <- Hcode in Hlen, Hascii.
  exists r'. split; [reflexivity |]. split; [exact Hcode |].
  split; [exact Hlen |]. split; [| split; [| split]].
  - unfold stored_attempts, redis_get. rewrite Hr'. reflexivity.
  - unfold redis_ttl. rewrite Hr'. reflexivity.
  - erewrite verify_code_match; [reflexivity | exact Hr' | cbn; lia |].
    cbn [EmailVerification.code].
    rewrite (compare_digest_ascii _ _ Hascii Hascii), String.eqb_refl.
    reflexivity.
  - intros c Hne.
    destruct (compare_digest c code) as [[|]|] eqn:Hcmp.
    + apply compare_digest_true in Hcmp. contradiction.
    + erewrite verify_code_wrong; [reflexivity | exact Hr' | cbn; lia
                                  | exact Httl | exact Hcmp].
    + erewrite verify_code_raises; [reflexivity | exact Hr' | cbn; lia
                                   | exact Hcmp].
Qed.

(** X11. While a pending code is younger than sixty seconds a new send
    is refused and the store is left as it was (the pending code stays
    valid, nothing is counted); when the pending code was not created in
    the future, the refusal names the number of whole seconds left. *)
Theorem send_refused_during_cooldown r email expire_minutes now_check
    now_store draw d ttl created :
  below_send_limit py_int_of_str r email = true ->
  r !! (VERIFICATION_PREFIX +:+ email)
    = Some {| value := RData d; ttl_seconds := ttl |} ->
  fromisoformat (created_at d) = Some created ->
  now_check - created < 60 * 1000000 ->
  exists remaining,
    send (Some r) email expire_minutes now_check now_store draw
    = ((false, "请求过于频繁",
        Some ("请在 " +:+ str_of_int remaining +:+ " 秒后重试")),
       Some r)
    /\ (created <= now_check ->
        remaining = (60 * 1000000 - (now_check - created)) / 1000000
        /\ 0 <= remaining <= 60).
Proof.
  intros Hlimit Hr Hiso Hyoung.
  exists (if 0 <=? now_check - created
          then (60 * 1000000 - (now_check - created)) / 1000000
          else skewed_seconds_left (now_check - created)).
  split.
  - unfold send_verification_code, below_send_limit in *.
    unfold redis_get in *. rewrite Hr in *.
    cbn [fmap option_fmap option_map value] in *.
    rewrite Hiso.
    assert (Hc : (now_check - created <? SEND_COOLDOWN_SECONDS * 1000000)
                 = true)
      by (apply Z.ltb_lt; unfold SEND_COOLDOWN_SECONDS; exact Hyoung).
    rewrite Hc. unfold SEND_COOLDOWN_SECONDS.
    destruct (r !! (SEND_LIMIT_PREFIX +:+ email)) as [[[? | s] ?] |];
      cbn in Hlimit |- *; try discriminate Hlimit; try reflexivity.
    destruct s; [reflexivity |].
    destruct (py_int_of_str _); [| discriminate Hlimit].
    unfold SEND_LIMIT_PER_HOUR in *.
    apply Z.ltb_lt in Hlimit. destruct (Z.leb_spec 5 z); [lia | reflexivity].
  - intros Hpast.
    destruct (Z.leb_spec 0 (now_check - created)); [| lia].
    split; [reflexivity |].
    split.
    + apply Z.div_pos; lia.
    + apply Z.div_le_upper_bound; lia.
Qed.

(** X12. Once the send counter reads five or more, a send is refused
    before anything else is looked at: whatever the pending code, the
    clock and the requested lifetime, the answer is the hourly-limit
    refusal and the store is left as it was. *)
Theorem send_refused_at_hourly_limit r email expire_minutes now_check
    now_store draw s ttl n :
  r !! (SEND_LIMIT_PREFIX +:+ email)
    = Some {| value := RText s; ttl_seconds := ttl |} ->
  s <> "" ->
  py_int_of_str s = Some n ->
  5 <= n ->
  send (Some r) email expire_minutes now_check now_store draw
  = ((false, "发送次数过多", Some "每小时最多发送 5 次验证码"), Some r).
Proof.
  intros Hr Hs Hint Hn. unfold send_verification_code, redis_get.
  rewrite Hr. cbn [fmap option_fmap option_map value].
  destruct s as [| a s]; [contradiction |].
  rewrite Hint. unfold SEND_LIMIT_PER_HOUR.
  destruct (Z.leb_spec 5 n); [reflexivity | lia].
Qed.

(** X13. A send can report a failure and still leave a valid code
    behind. When the send counter holds a text that Python's [int]
    reads as a number below the limit but the server does not read as
    an integer, and no code is pending, the new code is stored before
    [INCR] is refused: the call answers "系统错误" with the text of that
    error, the counter is what it was, and [verify_code] accepts the code
    that was never handed out. *)
Theorem send_incr_refused_keeps_code r email expire_minutes now_check
    now_store draw s ttl n :
  0 <= draw < 1000000 ->
  r !! (SEND_LIMIT_PREFIX +:+ email)
    = Some {| value := RText s; ttl_seconds := ttl |} ->
  s <> "" ->
  py_int_of_str s = Some n ->
  n < SEND_LIMIT_PER_HOUR ->
  redis_int_of_str s = None ->
  r !! (VERIFICATION_PREFIX +:+ email) = None ->
  0 < expire_time_of expire_minutes * 60 ->
  setex_accepts (expire_time_of expire_minutes * 60) = true ->
  exists r',
    send (Some r) email expire_minutes now_check now_store draw
    = ((false, "系统错误", Some (exception_text IncrFailed)), Some r')
    /\ r' !! (SEND_LIMIT_PREFIX +:+ email) = r !! (SEND_LIMIT_PREFIX +:+ email)
    /\ stored_attempts r' email = Some 0
    /\ redis_ttl r' (VERIFICATION_PREFIX +:+ email)
       = expire_time_of expire_minutes * 60
    /\ fst (verify_code (Some r') email (_generate_code draw))
       = (true, "验证成功").
Proof.
  intros Hdraw Hcount Hs Hpy Hn Hredis Hnone Hpos Hacc.
  set (data := {| code := _generate_code draw; attempts := 0;
                  created_at := isoformat now_store |}).
  exists (redis_setex r (VERIFICATION_PREFIX +:+ email)
            (expire_time_of expire_minutes * 60) (RData data)).
  assert (Hcount' :
    redis_setex r (VERIFICATION_PREFIX +:+ email)
      (expire_time_of expire_minutes * 60) (RData data)
      !! (SEND_LIMIT_PREFIX +:+ email)
    = Some {| value := RText s; ttl_seconds := ttl |}).
  { unfold redis_setex.
    rewrite lookup_insert_ne by apply send_limit_not_verification_key.
    exact Hcount. }
  assert (Hstored :
    redis_setex r (VERIFICATION_PREFIX +:+ email)
      (expire_time_of expire_minutes * 60) (RData data)
      !! (VERIFICATION_PREFIX +:+ email)
    = Some {| value := RData data;
              ttl_seconds := expire_time_of expire_minutes * 60 |})
    by apply lookup_insert_eq.
  split; [| split; [| split; [| split]]].
  - unfold send_verification_code, redis_get.
    rewrite Hcount, Hnone. cbn [fmap option_fmap option_map value].
    destruct s as [| a s]; [contradiction |].
    rewrite Hpy.
    destruct (Z.leb_spec SEND_LIMIT_PER_HOUR n) as [Hge | _]; [lia |].
    fold (expire_time_of expire_minutes). fold data.
    unfold redis_setex_checked.
    apply Z.ltb_lt in Hpos. rewrite Hpos, Hacc. cbn [andb].
    unfold redis_incr. rewrite Hcount'. cbn [value]. rewrite Hredis.
    reflexivity.
  - rewrite Hcount'. symmetry. exact Hcount.
  - unfold stored_attempts, redis_get. rewrite Hstored. reflexivity.
  - unfold redis_ttl. rewrite Hstored. reflexivity.
  - destruct (generate_code_shape draw Hdraw) as (_ & _ & Hascii).
    erewrite verify_code_match; [reflexivity | exact Hstored | cbn; lia |].
    cbn [code data].
    rewrite (compare_digest_ascii _ _ Hascii Hascii), String.eqb_refl.
    reflexivity.
Qed.

(** X14. A negative [expire_minutes] never stores a code: the call
    fails and the store is left as it was. *)
Theorem send_negative_lifetime_stores_nothing r email m now_check now_store
    draw :
  m < 0 ->
  let out :=
    send_verification_code py_int_of_str redis_int_of_str isoformat
      fromisoformat exception_text setex_accepts skewed_seconds_left
      (Some r) email (Some m) now_check now_store draw in
  fst (fst (fst out)) = false /\ snd out = Some r.
Proof.
  intros Hm. cbv zeta.
  assert (Hneg : (0 <? m * 60) = false) by (apply Z.ltb_ge; lia).
  unfold send_verification_code, system_error, redis_setex_checked.
  destruct m as [| p | p]; [lia | lia |].
  rewrite Hneg. cbn [andb].
  repeat case_match; simplify_eq; cbn [fst snd]; auto.
Qed.

(** X15. A successful send is counted: a missing counter becomes ["1"]
    with one hour to live, and a counter that the server reads as [n]
    becomes [n + 1] and keeps the lifetime it had (one hour again when
    it was zero). *)
Theorem send_success_counts r email expire_minutes now_check now_store draw
    code detail r' :
  send (Some r) email expire_minutes now_check now_store draw
  = ((true, code, detail), Some r') ->
  (r !! (SEND_LIMIT_PREFIX +:+ email) = None ->
   r' !! (SEND_LIMIT_PREFIX +:+ email)
   = Some {| value := RText "1"; ttl_seconds := 3600 |})
  /\ (forall s ttl n,
        r !! (SEND_LIMIT_PREFIX +:+ email)
          = Some {| value := RText s; ttl_seconds := ttl |} ->
        redis_int_of_str s = Some n ->
        r' !! (SEND_LIMIT_PREFIX +:+ email)
        = Some {| value := RText (str_of_int (n + 1));
                  ttl_seconds := if n =? 0 then 3600 else ttl |}).
Proof.
  intros H. apply send_success_inv in H
    as (_ & _ & _ & _ & n & r1 & r'' & [= <-] & Hincr & ->).
  unfold redis_incr, redis_setex in Hincr.
  rewrite lookup_insert_ne in Hincr by apply send_limit_not_verification_key.
  split.
  - intros Hnone. rewrite Hnone in Hincr. simplify_eq. cbn.
    unfold redis_expire. rewrite lookup_insert_eq. cbn.
    rewrite insert_insert_eq. apply lookup_insert_eq.
  - intros s ttl n' Hs Hn'. rewrite Hs in Hincr. cbn in Hincr.
    rewrite Hn' in Hincr. destruct (n' <? 2 ^ 63 - 1); simplify_eq.
    destruct (Z.eqb_spec n' 0) as [-> | Hnz].
    + cbn. unfold redis_expire. rewrite lookup_insert_eq. cbn.
      rewrite insert_insert_eq. apply lookup_insert_eq.
    + destruct (Z.eqb_spec (n' + 1) 1); [lia |]. apply lookup_insert_eq.
Qed.

End SendVerificationFacts.

Lemma send_then_verify_succeeds_witness :
  exists r',
    snd (EmailVerificationOps.send_verification_code
           (fun _ => None) (fun _ => None) str_of_int (fun _ => Some 0)
           (fun _ => "error") (fun _ => true) (fun _ => 60)
           (Some ∅) "user@example.com" None 0 0 42)
    = Some r'
    /\ fst (EmailVerification.verify_code (Some r') "user@example.com" "000042")
       = (true, "验证成功").
Proof.
  assert (Hrun :
    EmailVerificationOps.send_verification_code
      (fun _ => None) (fun _ => None) str_of_int (fun _ => Some 0)
      (fun _ => "error") (fun _ => true) (fun _ => 60)
      (Some ∅) "user@example.com" None 0 0 42
    = ((true, "000042", None),
       snd (EmailVerificationOps.send_verification_code
              (fun _ => None) (fun _ => None) str_of_int (fun _ => Some 0)
              (fun _ => "error") (fun _ => true) (fun _ => 60)
              (Some ∅) "user@example.com" None 0 0 42)))
    by (vm_compute; reflexivity).
  destruct (send_then_verify_succeeds
              (fun _ => None) (fun _ => None) str_of_int (fun _ => Some 0)
              (fun _ => "error") (fun _ => true) (fun _ => 60)
              ∅ "user@example.com" None 0 0 42
              "000042" None _ ltac:(lia) Hrun)
    as (r' & E & _ & _ & _ & _ & Hok & _).
  exists r'. split; [exact E | exact Hok].
Defined.

Lemma send_refused_during_cooldown_witness :
  let r : gmap string EmailVerification.RedisEntry :=
    {[ "email:verification:user@example.com" :=
         {| EmailVerification.value :=
              EmailVerification.RData
                {| EmailVerification.code := "123456";
                   EmailVerification.attempts := 0;
                   EmailVerification.created_at := "0" |};
            EmailVerification.ttl_seconds := 1800 |} ]} in
  exists remaining,
    EmailVerificationOps.send_verification_code
      (fun _ => None) (fun _ => None) str_of_int (fun _ => Some 0)
      (fun _ => "error") (fun _ => true) (fun _ => 60)
      (Some r) "user@example.com" None 12500000 12500000 42
    = ((false, "请求过于频繁",
        Some ("请在 " +:+ str_of_int remaining +:+ " 秒后重试")),
       Some r)
    /\ remaining = 47.
Proof.
  intros r.
  destruct (send_refused_during_cooldown
              (fun _ => None) (fun _ => None) str_of_int (fun _ => Some 0)
              (fun _ => "error") (fun _ => true) (fun _ => 60)
              r "user@example.com" None 12500000 12500000 42
              {| EmailVerification.code := "123456";
                 EmailVerification.attempts := 0;
                 EmailVerification.created_at := "0" |} 1800 0)
    as (remaining & Hrun & Hleft).
  - vm_compute. reflexivity.
  - vm_compute. reflexivity.
  - reflexivity.
  - lia.
  - exists remaining. split; [exact Hrun |].
    destruct Hleft as [-> _]; [lia | reflexivity].
Defined.

Lemma send_refused_at_hourly_limit_witness :
  let r : gmap string EmailVerification.RedisEntry :=
    {[ "email:send_limit:user@example.com" :=
         {| EmailVerification.value := EmailVerification.RText "5";
            EmailVerification.ttl_seconds := 1200 |} ]} in
  EmailVerificationOps.send_verification_code
    (fun s => if String.eqb s "5" then Some 5 else None)
    (fun _ => None) str_of_int (fun _ => None) (fun _ => "error")
    (fun _ => true) (fun _ => 60)
    (Some r) "user@example.com" None 0 0 42
  = ((false, "发送次数过多", Some "每小时最多发送 5 次验证码"), Some r).
Proof.
  intros r.
  refine (send_refused_at_hourly_limit
            (fun s => if String.eqb s "5" then Some 5 else None)
            (fun _ => None) str_of_int (fun _ => None) (fun _ => "error")
            (fun _ => true) (fun _ => 60)
            r "user@example.com" None 0 0 42 "5" 1200 5 _ _ _ _).
  - vm_compute. reflexivity.
  - discriminate.
  - reflexivity.
  - lia.
Defined.

Lemma send_incr_refused_keeps_code_witness :
  let r : gmap string EmailVerification.RedisEntry :=
    {[ "email:send_limit:user@example.com" :=
         {| EmailVerification.value := EmailVerification.RText " 3";
            EmailVerification.ttl_seconds := 1200 |} ]} in
  exists r',
    EmailVerificationOps.send_verification_code
      (fun s => if String.eqb s " 3" then Some 3 else None)
      (fun _ => None) str_of_int (fun _ => None) (fun _ => "error")
      (fun _ => true) (fun _ => 60)
      (Some r) "user@example.com" None 0 0 42
    = ((false, "系统错误", Some "error"), Some r')
    /\ fst (EmailVerification.verify_code (Some r') "user@example.com" "000042")
       = (true, "验证成功").
Proof.
  intros r.
  destruct (send_incr_refused_keeps_code
              (fun s => if String.eqb s " 3" then Some 3 else None)
              (fun _ => None) str_of_int (fun _ => None) (fun _ => "error")
              (fun _ => true) (fun _ => 60)
              r "user@example.com" None 0 0 42 " 3" 1200 3)
    as (r' & Hrun & _ & _ & _ & Hok).
  - lia.
  - vm_compute. reflexivity.
  - discriminate.
  - reflexivity.
  - vm_compute. reflexivity.
  - reflexivity.
  - vm_compute. reflexivity.
  - vm_compute. reflexivity.
  - reflexivity.
  - exists r'. split; [exact Hrun | exact Hok].
Defined.

Lemma send_negative_lifetime_stores_nothing_witness :
  snd (EmailVerificationOps.send_verification_code
         (fun _ => None) (fun _ => None) str_of_int (fun _ => None)
         (fun _ => "error") (fun _ => true) (fun _ => 60)
         (Some ∅) "user@example.com" (Some (-5)) 0 0 42)
  = Some ∅.
Proof.
  exact (proj2 (send_negative_lifetime_stores_nothing
                  (fun _ => None) (fun _ => None) str_of_int (fun _ => None)
                  (fun _ => "error") (fun _ => true) (fun _ => 60)
                  ∅ "user@example.com" (-5) 0 0 42
                  ltac:(lia))).
Defined.

Lemma send_success_counts_witness :
  exists r',
    snd (EmailVerificationOps.send_verification_code
           (fun _ => None) (fun _ => None) str_of_int (fun _ => Some 0)
           (fun _ => "error") (fun _ => true) (fun _ => 60)
           (Some ∅) "user@example.com" None 0 0 42)
    = Some r'
    /\ r' !! "email:send_limit:user@example.com"
       = Some {| EmailVerification.value := EmailVerification.RText "1";
                 EmailVerification.ttl_seconds := 3600 |}.
Proof.
  assert (Hrun :
    exists r',
      EmailVerificationOps.send_verification_code
        (fun _ => None) (fun _ => None) str_of_int (fun _ => Some 0)
        (fun _ => "error") (fun _ => true) (fun _ => 60)
        (Some ∅) "user@example.com" None 0 0 42
      = ((true, "000042", None), Some r'))
    by (eexists; vm_compute; reflexivity).
  destruct Hrun as [r' Hrun]. exists r'. split; [rewrite Hrun; reflexivity |].
  refine (proj1 (send_success_counts
                   (fun _ => None) (fun _ => None) str_of_int (fun _ => Some 0)
                   (fun _ => "error") (fun _ => true) (fun _ => 60)
                   ∅ "user@example.com" None 0 0 42
                   "000042" None r' Hrun) _).
  vm_compute. reflexivity.
Defined.

(** ** The auth handlers beyond the limiter *)

Section AuthRoutesMore.

Import AuthRoutes.

(* Symbolic execution of a handler: unfold the monad, keep strings folded. *)
Ltac exec :=
  cbv [run handle login_handle register_handle
         send_verification_code_handle verify_email_handle
         validate_or_invalid call call_exn bind emit ret raise try_except];
  cbn [app negb].


(** X17. Login beyond the limiter. Wrong credentials end in HTTP 401
    after the failed attempt has been audited and committed, and no
    token is created; right credentials are audited and committed as a
    success before the access and refresh tokens are created, and the
    response carries exactly those tokens and the user's identity. *)
Theorem login_outcomes w payload req remaining reset_after :
  w_json_body w = inr payload ->
  w_validate_login w payload = inr req ->
  w_check_limit w (w_client_ip w) "login" = (true, remaining, reset_after) ->
  let before :=
    [ EEnsureJsonBody; EModelValidate "LoginRequest"; EGetClientIp;
      EGetUserAgent; ECheckLimit (w_client_ip w) "login";
      EAuthenticateUser (login_email req) (login_password req) ] in
  match w_authenticate_user w (login_email req) (login_password req) with
  | None =>
      run (login_handle w)
      = (before ++ [EAuditLoginAttempt (login_email req) false; EDbCommit],
         inl (HTTPException 401 "邮箱或密码错误"))
  | Some user =>
      exists body,
        run (login_handle w)
        = (before ++ [ EAuditLoginAttempt (login_email req) true; EDbCommit;
                       ECreateAccessToken (user_id user);
                       ECreateRefreshToken (user_id user) ],
           inr body)
        /\ jget "access_token" body = Some (JStr (w_access_token w user))
        /\ jget "refresh_token" body = Some (JStr (w_refresh_token w user))
        /\ jget "user_id" body = Some (JStr (user_id user))
        /\ jget "email" body = Some (JStr (user_email user))
        /\ jget "role" body = Some (JStr (user_role user))
  end.
Proof.
  intros Hjson Hv Hlimit. cbv zeta.
  destruct (w_authenticate_user w (login_email req) (login_password req))
    as [user |] eqn:Hauth.
  - eexists. split.
    { exec. rewrite Hjson. exec. rewrite Hv. exec. rewrite Hlimit. exec.
      rewrite Hauth. reflexivity. }
    repeat split.
  - exec. rewrite Hjson. exec. rewrite Hv. exec. rewrite Hlimit. exec.
    rewrite Hauth. reflexivity.
Qed.

(** X18. Registration creates a user only when it is permitted: a
    [create_user] call for an email and username is made only if the
    limiter allowed the request, registration is not switched off, and,
    when email verification is required, that email is verified. *)
Theorem register_creates_user_only_when_permitted w email username :
  In (ECreateUser email username) (fst (run (register_handle w))) ->
  (exists remaining reset_after,
      w_check_limit w (w_client_ip w) "register"
      = (true, remaining, reset_after))
  /\ w_registration_setting w <> Some false
  /\ (w_require_email_verification w = true ->
      w_is_email_verified w email = true).
Proof.
  exec.
  destruct (w_json_body w) as [e | payload]; exec;
    [intros [H | []]; discriminate H |].
  destruct (w_validate_register w payload) as [errs | req]; exec;
    [intros [H | [H | []]]; discriminate H |].
  destruct (w_check_limit w (w_client_ip w) "register")
    as [[allowed remaining] reset_after].
  destruct allowed; exec;
    [| intros H; repeat (destruct H as [H | H]; [discriminate H |]);
       destruct H].
  destruct (w_registration_setting w) as [[|] |]; exec;
    try (intros H; repeat (destruct H as [H | H]; [discriminate H |]);
         destruct H).
  all: destruct (w_require_email_verification w); exec.
  all: try destruct (w_is_email_verified w (register_email req)) eqn:Hver;
    exec.
  all: try (intros H; repeat (destruct H as [H | H]; [discriminate H |]);
            destruct H).
  all: destruct (w_create_user w (register_email req)
                   (register_username req) (register_password req)); exec.
  all: intros H;
    repeat (destruct H as [H | H];
            [first [discriminate H | injection H as <- <-] |]);
    try destruct H.
  all: split; [eexists _, _; reflexivity |];
    (split; [discriminate |]); intros Hreq;
    first [exact Hver | discriminate Hreq].
Qed.


(** X20. Asking for a code for an email that is already registered is
    not answered with an error: past the limiter the handler returns
    [success = True] with the message "验证码已发送" and the configured
    lifetime, and neither the verification service nor the mailer is
    called, so no code is generated and no mail is sent. *)
Theorem send_code_registered_email_is_silent w payload req remaining
    reset_after :
  w_json_body w = inr payload ->
  w_validate_send w payload = inr req ->
  w_check_limit w (w_client_ip w) "verification_send"
    = (true, remaining, reset_after) ->
  w_existing_user w (send_email req) = true ->
  snd (run (send_verification_code_handle w))
  = inr (JDict
           [ ("success", JBool true);
             ("message", JStr "验证码已发送");
             ("expire_minutes", JInt (w_verification_code_expire_minutes w)) ])
  /\ Forall (fun ev => guarded ev = false)
       (fst (run (send_verification_code_handle w))).
Proof.
  intros Hjson Hv Hlimit Hexists.
  exec. rewrite Hjson. exec. rewrite Hv. exec. rewrite Hlimit. exec.
  rewrite Hexists. exec. split; [reflexivity | repeat constructor].
Qed.

(** X21. For an unregistered email that passed the limiter: if the
    verification service refuses, the client gets HTTP 400 with the
    service's detail (or its message when there is no detail) and no
    mail is sent; if the code is stored, a mail with exactly that code
    is sent; if that mail fails, the client gets HTTP 500 with a fixed
    text that does not contain the mail error. *)
Theorem send_code_outcomes w payload req remaining reset_after :
  w_json_body w = inr payload ->
  w_validate_send w payload = inr req ->
  w_check_limit w (w_client_ip w) "verification_send"
    = (true, remaining, reset_after) ->
  w_existing_user w (send_email req) = false ->
  let email := send_email req in
  let expire := w_verification_code_expire_minutes w in
  let trace := fst (run (send_verification_code_handle w)) in
  let result := snd (run (send_verification_code_handle w)) in
  match w_send_verification_code w email expire with
  | (false, message, detail) =>
      result = inl (HTTPException 400 (detail_or detail message))
      /\ forall e c, ~ In (ESendMail e c) trace
  | (true, code, _) =>
      In (ESendMail email code) trace
      /\ (forall e c, In (ESendMail e c) trace -> e = email /\ c = code)
      /\ match w_send_mail w email code expire with
         | (true, _) =>
             result
             = inr (JDict
                      [ ("message", JStr "验证码已发送，请查收邮件");
                        ("success", JBool true);
                        ("expire_minutes", JInt expire) ])
         | (false, _) =>
             result = inl (HTTPException 500 "发送验证码失败，请稍后重试")
         end
  end.
Proof.
  intros Hjson Hv Hlimit Hexists. cbv zeta.
  destruct (w_send_verification_code w (send_email req)
              (w_verification_code_expire_minutes w))
    as [[ok message] detail] eqn:Hsend.
  destruct ok.
  - destruct (w_send_mail w (send_email req) message
                (w_verification_code_expire_minutes w))
      as [mail_ok mail_error] eqn:Hmail.
    exec. rewrite Hjson. exec. rewrite Hv. exec. rewrite Hlimit. exec.
    rewrite Hexists. exec. rewrite Hsend. exec. rewrite Hmail.
    destruct mail_ok; exec.
    all: split; [cbn; tauto |]; split; [| reflexivity].
    all: intros e c H;
      repeat (destruct H as [H | H];
              [first [discriminate H | injection H as <- <-; auto] |]);
      destruct H.
  - exec. rewrite Hjson. exec. rewrite Hv. exec. rewrite Hlimit. exec.
    rewrite Hexists. exec. rewrite Hsend. exec.
    split; [reflexivity |].
    intros e c H.
    repeat (destruct H as [H | H]; [discriminate H |]). destruct H.
Qed.

(** X22. Verifying an email beyond the limiter: the verification
    service is asked exactly once, with the email and code of the
    request; its refusal becomes HTTP 400 carrying the service's own
    message, its acceptance the success response. *)
Theorem verify_email_outcomes w payload req remaining reset_after :
  w_json_body w = inr payload ->
  w_validate_verify w payload = inr req ->
  w_check_limit w (w_client_ip w) "verification_verify"
    = (true, remaining, reset_after) ->
  let trace := fst (run (verify_email_handle w)) in
  let result := snd (run (verify_email_handle w)) in
  filter (fun ev => guarded ev = true) trace
  = [EVerifyCode (verify_email req) (verify_code req)]
  /\ match w_verify_code w (verify_email req) (verify_code req) with
     | (true, _) =>
         result
         = inr (JDict [ ("message", JStr "邮箱验证成功");
                        ("success", JBool true) ])
     | (false, message) => result = inl (HTTPException 400 message)
     end.
Proof.
  intros Hjson Hv Hlimit. cbv zeta.
  destruct (w_verify_code w (verify_email req) (verify_code req))
    as [ok message] eqn:Hverify.
  exec. rewrite Hjson. exec. rewrite Hv. exec. rewrite Hlimit. exec.
  rewrite Hverify. destruct ok; exec; split; reflexivity.
Qed.

End AuthRoutesMore.


Lemma login_outcomes_witness :
  AuthRoutes.run (AuthRoutes.login_handle (AuthRoutes.sample_world true))
  = ([ AuthRoutes.EEnsureJsonBody; AuthRoutes.EModelValidate "LoginRequest";
       AuthRoutes.EGetClientIp; AuthRoutes.EGetUserAgent;
       AuthRoutes.ECheckLimit "203.0.113.7" "login";
       AuthRoutes.EAuthenticateUser "user@example.com" "secret";
       AuthRoutes.EAuditLoginAttempt "user@example.com" false;
       AuthRoutes.EDbCommit ],
     inl (AuthRoutes.HTTPException 401 "邮箱或密码错误")).
Proof.
  exact (login_outcomes (AuthRoutes.sample_world true) _ _ 4 42
           eq_refl eq_refl eq_refl).
Defined.

Lemma register_creates_user_only_when_permitted_witness :
  (exists remaining reset_after,
      AuthRoutes.w_check_limit (AuthRoutes.sample_world true)
        "203.0.113.7" "register" = (true, remaining, reset_after))
  /\ AuthRoutes.w_registration_setting (AuthRoutes.sample_world true)
     <> Some false.
Proof.
  destruct (register_creates_user_only_when_permitted
              (AuthRoutes.sample_world true) "user@example.com" "user")
    as (H1 & H2 & _).
  - vm_compute. tauto.
  - exact (conj H1 H2).
Defined.


Lemma send_code_registered_email_is_silent_witness :
  Forall (fun ev => AuthRoutes.guarded ev = false)
    (fst (AuthRoutes.run
            (AuthRoutes.send_verification_code_handle
               (AuthRoutesSamples.sample_world_with true true)))).
Proof.
  exact (proj2 (send_code_registered_email_is_silent
                  (AuthRoutesSamples.sample_world_with true true) _ _ 4 42
                  eq_refl eq_refl eq_refl eq_refl)).
Defined.

Lemma send_code_outcomes_witness :
  In (AuthRoutes.ESendMail "user@example.com" "123456")
     (fst (AuthRoutes.run
             (AuthRoutes.send_verification_code_handle
                (AuthRoutes.sample_world true)))).
Proof.
  exact (proj1 (send_code_outcomes (AuthRoutes.sample_world true) _ _ 4 42
                  eq_refl eq_refl eq_refl eq_refl)).
Defined.

Lemma verify_email_outcomes_witness :
  snd (AuthRoutes.run (AuthRoutes.verify_email_handle
                         (AuthRoutes.sample_world true)))
  = inl (AuthRoutes.HTTPException 400 "验证码不存在或已过期").
Proof.
  exact (proj2 (verify_email_outcomes (AuthRoutes.sample_world true) _ _ 4 42
                  eq_refl eq_refl eq_refl)).
Defined.

Section EmailSenderFacts.

Import EmailSender.

Variable py_repr : Json -> string.

Implicit Types (config : gmap string Json) (server : SmtpServer).

Ltac split_on x :=
  match goal with
  | |- context [x] => destruct x eqn:?; cbv beta iota
  | _ => idtac
  end.

(* The paths through [_send_email_sync], split in program order so that
   what follows a raise is never looked at. *)
Ltac sender_paths config server :=
  cbv [_send_email_sync build_message subscript command finally seq effect
         done fail];
  cbv beta iota;
  split_on (config !! "smtp_from_name");
  split_on (config !! "smtp_from_email");
  split_on (config !! "smtp_use_ssl");
  split_on (config !! "smtp_host");
  split_on (config !! "smtp_port");
  split_on (connect_error server);
  repeat match goal with
         | |- context [py_truthy ?v] => destruct (py_truthy v) eqn:?;
                                        cbv beta iota
         end;
  split_on (config !! "smtp_use_tls");
  repeat match goal with
         | |- context [py_truthy ?v] => destruct (py_truthy v) eqn:?;
                                        cbv beta iota
         end;
  split_on (starttls_error server);
  split_on (config !! "smtp_user");
  repeat match goal with
         | |- context [py_truthy ?v] => destruct (py_truthy v) eqn:?;
                                        cbv beta iota
         end;
  split_on (config !! "smtp_password");
  repeat match goal with
         | |- context [py_truthy ?v] => destruct (py_truthy v) eqn:?;
                                        cbv beta iota
         end;
  split_on (login_error server);
  split_on (send_error server);
  split_on (quit_error server).

(** X23. [_validate_smtp_config] accepts a configuration exactly when
    [smtp_host] and [smtp_from_email] are both present and truthy, and
    otherwise names the first of the two that is not. *)
Theorem validate_smtp_config_reports_first_missing config :
  let ok key := from_option py_truthy false (config !! key) in
  (fst (_validate_smtp_config config) = true
   <-> ok "smtp_host" = true /\ ok "smtp_from_email" = true)
  /\ (ok "smtp_host" = false ->
      _validate_smtp_config config
      = (false, Some "缺少必要的 SMTP 配置: smtp_host"))
  /\ (ok "smtp_host" = true -> ok "smtp_from_email" = false ->
      _validate_smtp_config config
      = (false, Some "缺少必要的 SMTP 配置: smtp_from_email"))
  /\ (fst (_validate_smtp_config config) = true ->
      snd (_validate_smtp_config config) = None).
Proof.
  cbv zeta. unfold _validate_smtp_config.
  destruct (from_option py_truthy false (config !! "smtp_host"));
    destruct (from_option py_truthy false (config !! "smtp_from_email"));
    cbn; intuition congruence.
Qed.

(** X24. [_send_email_sync] closes every connection it opened, once and
    last: its SMTP commands are either none (the configuration lacked a
    key), or a single failed connection attempt, or a successful
    connection followed by commands that end with exactly one QUIT,
    whatever raised in between. *)
Theorem send_email_sync_always_quits config server to_email subject
    html_body text_body :
  let trace :=
    fst (_send_email_sync py_repr config server to_email subject html_body
           text_body) in
  match filter (fun ev => is_smtp ev = true) trace with
  | [] => True
  | first :: rest =>
      is_connect first = true
      /\ match connect_error server with
         | Some _ => rest = []
         | None =>
             exists middle,
               rest = middle ++ [SQuit]
               /\ Forall (fun ev => is_quit ev = false
                                    /\ is_connect ev = false) middle
         end
  end.
Proof.
  cbv zeta. sender_paths config server.
  all: cbn.
  all: try exact I.
  all: (split; [reflexivity |]).
  all: try reflexivity.
  all: match goal with
       | |- exists middle, ?rest = _ /\ _ =>
           exists (removelast rest); split; [reflexivity |];
           cbn; repeat constructor
       end.
Qed.

(** X25. [_send_email_sync] reports success exactly when the message
    was handed to the server without error, and then without a detail;
    every failure is reported as "发送邮件失败: " followed by the text of
    what was raised, and is the last thing logged. An error while
    closing the connection never changes the reported outcome. *)
Theorem send_email_sync_outcome config server to_email subject html_body
    text_body :
  let out :=
    _send_email_sync py_repr config server to_email subject html_body
      text_body in
  match snd out with
  | (true, detail) =>
      detail = None
      /\ connect_error server = None
      /\ send_error server = None
      /\ exists message, In (SSendMessage message) (fst out)
  | (false, detail) =>
      exists text,
        detail = Some ("发送邮件失败: " +:+ text)
        /\ last (fst out) = Some (SLogError ("发送邮件失败: " +:+ text))
  end
  /\ forall quit_answer,
       snd (_send_email_sync py_repr config
              {| connect_error := connect_error server;
                 starttls_error := starttls_error server;
                 login_error := login_error server;
                 send_error := send_error server;
                 quit_error := quit_answer |}
              to_email subject html_body text_body)
       = snd out.
Proof.
  cbv zeta. split.
  - sender_paths config server.
    all: cbn [fst snd app].
    all: first
      [ eexists; split; reflexivity
      | repeat split; try reflexivity; eexists; cbn; tauto ].
  - intros quit_answer. destruct server as [c s l se q].
    cbv [connect_error starttls_error login_error send_error quit_error].
    cbv [_send_email_sync build_message subscript command finally seq effect
           done fail].
    cbv beta iota.
    split_on (config !! "smtp_from_name");
    split_on (config !! "smtp_from_email");
    split_on (config !! "smtp_use_ssl");
    split_on (config !! "smtp_host");
    split_on (config !! "smtp_port");
    split_on c.
    all: repeat match goal with
                | |- context [py_truthy ?v] =>
                    destruct (py_truthy v) eqn:?; cbv beta iota
                end.
    all: split_on (config !! "smtp_use_tls").
    all: repeat match goal with
                | |- context [py_truthy ?v] =>
                    destruct (py_truthy v) eqn:?; cbv beta iota
                end.
    all: split_on s.
    all: split_on (config !! "smtp_user").
    all: repeat match goal with
                | |- context [py_truthy ?v] =>
                    destruct (py_truthy v) eqn:?; cbv beta iota
                end.
    all: split_on (config !! "smtp_password").
    all: repeat match goal with
                | |- context [py_truthy ?v] =>
                    destruct (py_truthy v) eqn:?; cbv beta iota
                end.
    all: split_on l.
    all: split_on se.
    all: reflexivity.
Qed.

Lemma send_email_sync_effects config server to_email subject html_body
    text_body ev :
  In ev (fst (_send_email_sync py_repr config server to_email subject
                html_body text_body)) ->
  match ev with
  | SConnect ssl host port =>
      config !! "smtp_host" = Some host
      /\ config !! "smtp_port" = Some port
      /\ exists v, config !! "smtp_use_ssl" = Some v /\ py_truthy v = ssl
  | SStartTls =>
      (exists v, config !! "smtp_use_ssl" = Some v /\ py_truthy v = false)
      /\ (exists v, config !! "smtp_use_tls" = Some v /\ py_truthy v = true)
  | SLogin user password =>
      config !! "smtp_user" = Some user
      /\ config !! "smtp_password" = Some password
      /\ py_truthy user = true /\ py_truthy password = true
  | SSendMessage message =>
      msg_to message = to_email /\ msg_subject message = subject
  | _ => True
  end.
Proof.
  sender_paths config server.
  all: cbn [fst snd app]; intros H.
  all: repeat (destruct H as [<- | H]; [cbn; eauto 8 |]); destruct H.
Qed.

(** X26. What [_send_email_sync] sends follows the configuration: it
    connects to the configured host and port, with SSL exactly when
    [smtp_use_ssl] is truthy; it issues STARTTLS only on a plain
    connection with a truthy [smtp_use_tls]; it logs in only with the
    configured [smtp_user] and [smtp_password] and only when both are
    truthy; and the message it sends is addressed to the recipient it
    was given, under the subject it was given. *)
Theorem send_email_sync_follows_config config server to_email subject
    html_body text_body :
  let trace :=
    fst (_send_email_sync py_repr config server to_email subject html_body
           text_body) in
  (forall ssl host port,
      In (SConnect ssl host port) trace ->
      config !! "smtp_host" = Some host
      /\ config !! "smtp_port" = Some port
      /\ exists v, config !! "smtp_use_ssl" = Some v /\ py_truthy v = ssl)
  /\ (In SStartTls trace ->
      (exists v, config !! "smtp_use_ssl" = Some v /\ py_truthy v = false)
      /\ (exists v, config !! "smtp_use_tls" = Some v /\ py_truthy v = true))
  /\ (forall user password,
        In (SLogin user password) trace ->
        config !! "smtp_user" = Some user
        /\ config !! "smtp_password" = Some password
        /\ py_truthy user = true /\ py_truthy password = true)
  /\ (forall message,
        In (SSendMessage message) trace ->
        msg_to message = to_email /\ msg_subject message = subject).
Proof.
  cbv zeta. repeat split; intros;
    match goal with
    | H : In _ _ |- _ => apply send_email_sync_effects in H
    end; cbn in *; intuition.
Qed.

End EmailSenderFacts.

Section AuthAccountFacts.

Import AuthRoutes AuthAccount.

Ltac exec_account :=
  cbv [AuthAccount.run refresh_handle change_password_handle logout_handle
         AuthAccount.call AuthAccount.call_exn AuthAccount.bind
         AuthAccount.emit AuthAccount.ret AuthAccount.raise];
  cbn [app negb].

Ltac no_such_effect :=
  let H := fresh in
  intros H; repeat (destruct H as [H | H]; [discriminate H |]); destruct H.

(** X27. Refreshing a token, once the body is accepted: new tokens are
    created only for an existing, active user whose id the verified
    token carries, and the response holds exactly those tokens; every
    other outcome is an [HTTPException] and creates no token. An
    exception of [verify_token] that is not an [HTTPException] is
    answered with HTTP 401 "刷新令牌失败", and a disabled user with
    HTTP 403. *)
Theorem refresh_outcomes w payload token :
  AuthAccount.w_json_body w = inr payload ->
  w_validate_refresh w payload = inr token ->
  let trace := fst (AuthAccount.run (refresh_handle w)) in
  let result := snd (AuthAccount.run (refresh_handle w)) in
  match result with
  | inr body =>
      exists uid user,
        w_verify_token w token = inr (Some uid)
        /\ truthy uid = true
        /\ w_user_by_id w uid = Some user
        /\ account_is_active user = true
        /\ jget "access_token" body
           = Some (JStr (AuthAccount.w_access_token w user))
        /\ jget "refresh_token" body
           = Some (JStr (AuthAccount.w_refresh_token w user))
  | inl e =>
      (exists code detail, e = HTTPException code detail)
      /\ (forall uid, ~ In (ACreateAccessToken uid) trace)
      /\ (forall uid, ~ In (ACreateRefreshToken uid) trace)
  end
  /\ (forall exc,
        w_verify_token w token = inl exc ->
        (forall code detail, exc <> HTTPException code detail) ->
        result = inl (HTTPException 401 "刷新令牌失败"))
  /\ (forall uid user,
        w_verify_token w token = inr (Some uid) ->
        truthy uid = true ->
        w_user_by_id w uid = Some user ->
        account_is_active user = false ->
        result = inl (HTTPException 403 "用户已禁用")).
Proof.
  intros Hjson Hv. cbv zeta.
  exec_account. rewrite Hjson. exec_account. rewrite Hv. exec_account.
  destruct (w_verify_token w token) as [exc | [uid |]] eqn:Hverify;
    exec_account.
  - destruct exc; cbn.
    all: split; [split; [eexists _, _; reflexivity
                        | split; intros ?; no_such_effect] |].
    all: split; [| intros ? ? [=]].
    all: intros exc' [= <-] Hnot; first [reflexivity | exfalso; eapply Hnot; reflexivity].
  - destruct (truthy uid) eqn:Htruthy; exec_account.
    + destruct (w_user_by_id w uid) as [user |] eqn:Huser; exec_account.
      * destruct (account_is_active user) eqn:Hactive; exec_account.
        -- split; [eexists uid, user; repeat split; assumption |].
           split; [intros ? [=] |].
           intros ? ? [= <-] _ Hu' Hina. rewrite Huser in Hu'.
           injection Hu' as <-. congruence.
        -- split; [split; [eexists _, _; reflexivity
                          | split; intros ?; no_such_effect] |].
           split; [intros ? [=] |]. intros; reflexivity.
      * split; [split; [eexists _, _; reflexivity
                       | split; intros ?; no_such_effect] |].
        split; [intros ? [=] |].
        intros ? ? [= <-] _ Hu' _. rewrite Huser in Hu'. discriminate Hu'.
    + split; [split; [eexists _, _; reflexivity
                     | split; intros ?; no_such_effect] |].
      split; [intros ? [=] |].
      intros ? ? [= <-] Ht. congruence.
  - split; [split; [eexists _, _; reflexivity
                   | split; intros ?; no_such_effect] |].
    split; [intros ? [=] | intros ? ? [=]].
Qed.

(** X28. Changing the password: the password is set only when both
    fields are present and truthy, the old password verifies and the new
    one has at least 8 characters, and then the request succeeds; a
    missing or empty field is refused with HTTP 400 before the old
    password is looked at; a wrong old password is refused with
    HTTP 400 whatever the new password's length. *)
Theorem change_password_guards w payload :
  AuthAccount.w_json_body w = inr payload ->
  let old_password := default JNull (jget "old_password" payload) in
  let new_password := default JNull (jget "new_password" payload) in
  let trace := fst (AuthAccount.run (change_password_handle w)) in
  let result := snd (AuthAccount.run (change_password_handle w)) in
  (forall p,
     In (ASetPassword p) trace ->
     p = new_password
     /\ truthy old_password = true
     /\ truthy new_password = true
     /\ w_verify_password w old_password = inr true
     /\ (exists n, py_len_of new_password = inr n /\ 8 <= n)
     /\ result = inr (JDict [("message", JStr "密码修改成功")]))
  /\ (truthy old_password = false \/ truthy new_password = false ->
      trace = [AEnsureJsonBody]
      /\ result = inl (HTTPException 400 "必须提供旧密码和新密码"))
  /\ (truthy old_password = true ->
      truthy new_password = true ->
      w_verify_password w old_password = inr false ->
      result = inl (HTTPException 400 "旧密码错误"))
  /\ (truthy old_password = true ->
      truthy new_password = true ->
      w_verify_password w old_password = inr true ->
      forall n, py_len_of new_password = inr n ->
      (n < 8 -> result = inl (InvalidRequestException "密码长度至少8位"))
      /\ (8 <= n -> In (ASetPassword new_password) trace)).
Proof.
  intros Hjson. cbv zeta.
  exec_account. rewrite Hjson. exec_account.
  set (old_password := default JNull (jget "old_password" payload)).
  set (new_password := default JNull (jget "new_password" payload)).
  destruct (truthy old_password) eqn:Hold; cbn [negb orb];
    [destruct (truthy new_password) eqn:Hnew; cbn [negb orb] |].
  2,3: exec_account;
    (split; [intros p; no_such_effect |]);
    (split; [intros _; split; reflexivity |]);
    (split; [intros; discriminate |]);
    intros; discriminate.
  exec_account.
  destruct (w_verify_password w old_password) as [exc | [|]] eqn:Hverify;
    exec_account.
  - split; [intros p; no_such_effect |].
    split; [intros [|]; discriminate |].
    split; intros; discriminate.
  - destruct (py_len_of new_password) as [message | n] eqn:Hlen;
      exec_account.
    + split; [intros p; no_such_effect |].
      split; [intros [|]; discriminate |].
      split; intros; discriminate.
    + destruct (n <? 8) eqn:Hn; exec_account.
      * apply Z.ltb_lt in Hn.
        split; [intros p; no_such_effect |].
        split; [intros [|]; discriminate |].
        split; [intros; discriminate |].
        intros _ _ _ n' [= <-]. split; [reflexivity | lia].
      * apply Z.ltb_ge in Hn.
        split.
        { intros p Hin.
          repeat (destruct Hin as [Hin | Hin]; [try discriminate Hin |]);
            [| destruct Hin].
          injection Hin as <-. repeat split; try reflexivity.
          exists n. split; [reflexivity | exact Hn]. }
        split; [intros [|]; discriminate |].
        split; [intros; discriminate |].
        intros _ _ _ n' [= <-]. split; [lia |].
        intros _. cbn. tauto.
  - split; [intros p; no_such_effect |].
    split; [intros [|]; discriminate |].
    split; [reflexivity |]. intros; discriminate.
Qed.

Lemma replace_from_skip old new p t :
  replace_from old new (String.length p) (p +:+ t) = replace_from old new 0 t.
Proof.
  induction p as [| c p IH]; [destruct t; reflexivity |].
  simpl. exact IH.
Qed.

Lemma replace_from_no_occurrence old new s :
  occurs old s = false -> replace_from old new 0 s = s.
Proof.
  induction s as [| c s IH]; [reflexivity |].
  intros Hocc. change (occurs old (String c s))
    with (String.prefix old (String c s) || occurs old s) in Hocc.
  apply orb_false_iff in Hocc as [Hp Hrest].
  change (replace_from old new 0 (String c s))
    with (if String.prefix old (String c s)
          then new +:+ replace_from old new (String.length old - 1) s
          else String c (replace_from old new 0 s)).
  rewrite Hp, (IH Hrest). reflexivity.
Qed.

Lemma prefix_app p t : String.prefix p (p +:+ t) = true.
Proof.
  induction p as [| c p IH]; [destruct t; reflexivity |].
  simpl. rewrite IH.
  destruct (Ascii.ascii_dec c c); [reflexivity | congruence].
Qed.

Lemma replace_from_prefix old new t :
  old <> "" ->
  replace_from old new 0 (old +:+ t) = new +:+ replace_from old new 0 t.
Proof.
  intros Hold. destruct old as [| c old]; [congruence |].
  pose proof (prefix_app (String c old) t) as Hp.
  change (String c old +:+ t) with (String c (old +:+ t)) in Hp |- *.
  change (replace_from (String c old) new 0 (String c (old +:+ t)))
    with (if String.prefix (String c old) (String c (old +:+ t))
          then new +:+ replace_from (String c old) new
                         (String.length (String c old) - 1) (old +:+ t)
          else String c (replace_from (String c old) new 0 (old +:+ t))).
  rewrite Hp.
  replace (String.length (String c old) - 1)%nat with (String.length old)
    by (cbn [String.length]; lia).
  rewrite replace_from_skip. reflexivity.
Qed.

Lemma replace_bearer t :
  occurs "Bearer " t = false ->
  py_replace "Bearer " "" ("Bearer " +:+ t) = t.
Proof.
  intros Hocc. unfold py_replace.
  rewrite replace_from_prefix by discriminate.
  rewrite (replace_from_no_occurrence _ _ _ Hocc). reflexivity.
Qed.

(** X29. Logging out: [AuthService.logout] is called only with the
    [Authorization] header stripped of every "Bearer ", and only for a
    header that starts with "Bearer "; for the header "Bearer " + t
    where t holds no further "Bearer " the token revoked is t itself; a
    missing or differently formed header is refused with HTTP 401
    before anything is revoked; and the audit event is written only
    when the revocation succeeded. *)
Theorem logout_revokes_header_token w :
  let trace := fst (AuthAccount.run (logout_handle w)) in
  let result := snd (AuthAccount.run (logout_handle w)) in
  (forall token,
     In (ALogout token) trace ->
     exists header,
       w_authorization w = Some header
       /\ String.prefix "Bearer " header = true
       /\ token = py_replace "Bearer " "" header)
  /\ (forall t,
        w_authorization w = Some ("Bearer " +:+ t) ->
        occurs "Bearer " t = false ->
        In (ALogout t) trace
        /\ result = inr (JDict [("message",
                                  JStr (if w_logout w t then "登出成功"
                                        else "登出成功（降级模式）"));
                                 ("success", JBool (w_logout w t))]))
  /\ (match w_authorization w with
      | Some header => String.prefix "Bearer " header = false
      | None => True
      end ->
      result = inl (HTTPException 401 "缺少认证令牌")
      /\ forall token, ~ In (ALogout token) trace)
  /\ (forall event_type description,
        In (AAuditEvent event_type description) trace ->
        exists token, In (ALogout token) trace /\ w_logout w token = true).
Proof.
  cbv zeta. exec_account.
  destruct (w_authorization w) as [[| c header] |] eqn:Hheader.
  1,3: exec_account;
    (split; [intros token; no_such_effect |]);
    (split; [intros t [=]; destruct t; discriminate |]);
    (split; [intros _; split; [reflexivity | intros token; no_such_effect] |]);
    intros ? ?; no_such_effect.
  destruct (String.prefix "Bearer " (String c header)) eqn:Hprefix.
  2: { exec_account.
       split; [intros token; no_such_effect |].
       split; [intros t Heq' | ].
       { assert (Heq : String c header = "Bearer " +:+ t)
           by (inversion Heq'; reflexivity).
         rewrite Heq, prefix_app in Hprefix. discriminate. }
       split; [intros _; split; [reflexivity | intros token; no_such_effect] |].
       intros ? ?; no_such_effect. }
  exec_account.
  set (token := py_replace "Bearer " "" (String c header)).
  destruct (w_logout w token) eqn:Hlogout; exec_account.
  all: split;
    [ intros token' Hin;
      repeat (destruct Hin as [Hin | Hin]; [try discriminate Hin |]);
      [| destruct Hin];
      injection Hin as <-; exists (String c header); repeat split; assumption
    |].
  all: split;
    [ intros t Heq' Hocc;
      assert (Heq : String c header = "Bearer " +:+ t)
        by (inversion Heq'; reflexivity);
      assert (Htoken : token = t)
        by (unfold token; rewrite Heq; exact (replace_bearer t Hocc));
      rewrite <- Htoken, Hlogout; split; [cbn; tauto | reflexivity]
    |].
  all: split; [intros [=] |].
  - intros ? ? _. exists token. split; [cbn; tauto | exact Hlogout].
  - intros ? ?; no_such_effect.
Qed.

Lemma refresh_outcomes_witness :
  exists uid user,
    w_verify_token sample_session "r-1" = inr (Some uid)
    /\ truthy uid = true
    /\ w_user_by_id sample_session uid = Some user
    /\ account_is_active user = true
    /\ jget "access_token"
         (JDict [ ("access_token", JStr "access-2");
                  ("refresh_token", JStr "refresh-2");
                  ("token_type", JStr "bearer");
                  ("expires_in", JInt 86400) ])
       = Some (JStr (AuthAccount.w_access_token sample_session user))
    /\ jget "refresh_token"
         (JDict [ ("access_token", JStr "access-2");
                  ("refresh_token", JStr "refresh-2");
                  ("token_type", JStr "bearer");
                  ("expires_in", JInt 86400) ])
       = Some (JStr (AuthAccount.w_refresh_token sample_session user)).
Proof.
  exact (proj1 (refresh_outcomes sample_session _ "r-1" eq_refl eq_refl)).
Defined.

Lemma change_password_guards_witness :
  In (ASetPassword (JStr "new-secret"))
     (fst (AuthAccount.run (change_password_handle sample_session))).
Proof.
  refine (proj2 (proj2 (proj2 (proj2
                  (change_password_guards sample_session _ eq_refl)))
                 eq_refl eq_refl eq_refl 10 eq_refl) _).
  vm_compute. discriminate.
Defined.

End AuthAccountFacts.
